(** * Real-Time Sensor Fusion Dashboard: the ML service

    A shallow embedding of [ml-service/src/anomaly_detector.py] (the
    [AnomalyDetector] class), of [ml-service/src/websocket_client.py] (the
    message dispatch of [SensorWebSocketClient._handle_message], the
    connection and the senders) and of the sample processing of
    [ml-service/src/main.py], with the properties the specification states
    about them and further ones read off the code.

    Numbers.  The detector computes on Python floats; the specification speaks
    of feature vectors of real numbers and of the algorithmic contract only, so
    the detector is modelled in [R]: [np.sqrt] is [sqrt], [np.exp] is [exp], and
    no NaN, infinity or rounding exists in that model.  What is proved of it is
    the structure of the computation (which branch runs, what is recorded,
    which formula is evaluated); a bound or a value of a score is proved of the
    reals, not of binary64.  The statistical scorer is given a second time in
    binary64 ([statistical_anomaly_score_float]), where it overflows.

    Third-party code.  [StandardScaler] and [IsolationForest] (scikit-learn)
    and [json.loads] are not part of the repository.  They enter as Section
    variables: an object state, and operations that either return or raise. *)

From Stdlib Require Import Floats.
From Stdlib Require Import String Ascii.
From Stdlib Require Import Reals Lra Lia Bool Arith PeanoNat ZArith List.
Import ListNotations.

Local Open Scope R_scope.

(** ** [collections.deque(maxlen=n)] *)

Module Deque.

(** [d.append(x)] on a deque of bound [maxlen]: the item goes to the right
    end and, when the bound is exceeded, items leave from the left end.
    With [maxlen = 0] nothing is kept. *)
Definition append {A : Type} (maxlen : nat) (d : list A) (x : A) : list A :=
  let d' := d ++ [x] in
  skipn (length d' - maxlen) d'.

End Deque.

(** ** The part of numpy the detector uses *)

Module Np.

Definition sum (l : list R) : R := fold_right Rplus 0 l.

(** [np.mean] of a 1-d array. *)
Definition mean (l : list R) : R := sum l / INR (length l).

(** [np.std] of a 1-d array (population standard deviation, [ddof=0]). *)
Definition std (l : list R) : R :=
  let m := mean l in
  sqrt (mean (map (fun v => (v - m) * (v - m)) l)).

(** [np.array(rows)] for a list of lists of floats is a 2-d array when all
    rows have one length, which is then the number of columns; ragged rows
    make it raise.  The detector builds no array from an empty list (both
    callers test the length first); [shape] gives [None] there. *)
Definition shape (rows : list (list R)) : option nat :=
  match rows with
  | [] => None
  | r :: rest =>
      if forallb (fun r' => length r' =? length r)%nat rest
      then Some (length r) else None
  end.

Definition column (rows : list (list R)) (j : nat) : list R :=
  map (fun r => nth j r 0) rows.

(** [np.mean(X, axis=0)] and [np.std(X, axis=0)] on an array of [m] columns. *)
Definition mean0 (rows : list (list R)) (m : nat) : list R :=
  map (fun j => mean (column rows j)) (seq 0 m).

Definition std0 (rows : list (list R)) (m : nat) : list R :=
  map (fun j => std (column rows j)) (seq 0 m).

Fixpoint zip_with (f : R -> R -> R) (a b : list R) : list R :=
  match a, b with
  | x :: a', y :: b' => f x y :: zip_with f a' b'
  | _, _ => []
  end.

(** Elementwise binary operation on two 1-d arrays under numpy's
    broadcasting: equal lengths pair up, a length-1 array is stretched, any
    other pair of shapes raises. *)
Definition broadcast (f : R -> R -> R) (a b : list R) : option (list R) :=
  if (length a =? length b)%nat then Some (zip_with f a b)
  else match a, b with
       | [x], _ => Some (map (f x) b)
       | _, [y] => Some (map (fun v => f v y) a)
       | _, _ => None
       end.

(** [np.max] of a 1-d array; raises on an empty one. *)
Definition max (l : list R) : option R :=
  match l with
  | [] => None
  | x :: l' => Some (fold_left Rmax l' x)
  end.

(** [np.clip(x, lo, hi)]. *)
Definition clip (x lo hi : R) : R := Rmin (Rmax x lo) hi.

End Np.

(** ** The statistical scorer *)

(** The small constant added to the standard deviations. *)
Definition eps : R := 1 / 1000000.

(** [z_scores hist x] is [np.abs((features[0] - means) / stds)] of
    [_statistical_anomaly_score], [None] when numpy raises. *)
Definition z_scores (historical_data : list (list R)) (features : list R)
  : option (list R) :=
  match Np.shape historical_data with
  | None => None
  | Some m =>
      let means := Np.mean0 historical_data m in
      let stds := map (fun s => s + eps) (Np.std0 historical_data m) in
      match Np.broadcast Rminus features means with
      | None => None
      | Some diff =>
          match Np.broadcast Rdiv diff stds with
          | None => None
          | Some q => Some (map Rabs q)
          end
      end
  end.

(** [AnomalyDetector._statistical_anomaly_score], as a function of the buffer
    it reads ([self.data_buffer]) and of the query.  Every exception of the
    body is caught there and turned into [0.0]. *)
Definition statistical_anomaly_score
  (data_buffer : list (list R)) (features : list R) : R :=
  if (length data_buffer <? 5)%nat then 0
  else
    let historical_data := removelast data_buffer in
    if (length historical_data =? 0)%nat then 0
    else
      match z_scores historical_data features with
      | None => 0
      | Some zs =>
          match Np.max zs with
          | None => 0
          | Some max_z_score => Rmin (max_z_score / 3) 1
          end
      end.

(** [AnomalyDetector._normalize_score]. *)
Definition normalize_score (decision_score : R) : R :=
  let shifted := - decision_score in
  let normalized := 1 / (1 + exp (- 10 * shifted)) in
  Np.clip normalized 0 1.

(** ** The statistical scorer in binary64 *)

(** numpy on float64 arrays: the same operations as in [Np], on IEEE 754
    doubles.  Nothing here raises on overflow or on an invalid operation:
    numpy answers with infinity or nan (and a warning). *)
Module NpFloat.

Local Open Scope float_scope.

Definition of_nat (n : nat) : float :=
  PrimFloat.of_uint63 (Uint63.of_Z (Z.of_nat n)).

(** [np.add.reduce] along an axis: from the first entry on, in order. *)
Definition sum (l : list float) : float :=
  match l with
  | [] => 0
  | x :: l' => fold_left PrimFloat.add l' x
  end.

Definition mean (l : list float) : float := sum l / of_nat (length l).

Definition std (l : list float) : float :=
  let m := mean l in
  PrimFloat.sqrt (mean (map (fun v => (v - m) * (v - m)) l)).

Definition shape (rows : list (list float)) : option nat :=
  match rows with
  | [] => None
  | r :: rest =>
      if forallb (fun r' => length r' =? length r)%nat rest
      then Some (length r) else None
  end.

Definition column (rows : list (list float)) (j : nat) : list float :=
  map (fun r => nth j r 0) rows.

Definition mean0 (rows : list (list float)) (m : nat) : list float :=
  map (fun j => mean (column rows j)) (seq 0 m).

Definition std0 (rows : list (list float)) (m : nat) : list float :=
  map (fun j => std (column rows j)) (seq 0 m).

Fixpoint zip_with (f : float -> float -> float) (a b : list float)
  : list float :=
  match a, b with
  | x :: a', y :: b' => f x y :: zip_with f a' b'
  | _, _ => []
  end.

Definition broadcast (f : float -> float -> float) (a b : list float)
  : option (list float) :=
  if (length a =? length b)%nat then Some (zip_with f a b)
  else match a, b with
       | [x], _ => Some (map (f x) b)
       | _, [y] => Some (map (fun v => f v y) a)
       | _, _ => None
       end.

(** [np.maximum]: the larger of the two, nan when either is nan. *)
Definition maximum (a b : float) : float :=
  if PrimFloat.is_nan a then a
  else if PrimFloat.is_nan b then b
  else if a <? b then b else a.

(** [np.max] of a 1-d array; raises on an empty one. *)
Definition max (l : list float) : option float :=
  match l with
  | [] => None
  | x :: l' => Some (fold_left maximum l' x)
  end.

(** Python's [min(a, b)] on two floats: [b] when [b < a], else [a]. *)
Definition py_min (a b : float) : float := if b <? a then b else a.

End NpFloat.

#[local] Set Warnings "-inexact-float".

(** [np.abs((features[0] - means) / stds)] on doubles. *)
Definition z_scores_float (historical_data : list (list float))
  (features : list float) : option (list float) :=
  match NpFloat.shape historical_data with
  | None => None
  | Some m =>
      let means := NpFloat.mean0 historical_data m in
      let stds :=
        map (fun s => PrimFloat.add s 1e-6%float) (NpFloat.std0 historical_data m) in
      match NpFloat.broadcast PrimFloat.sub features means with
      | None => None
      | Some diff =>
          match NpFloat.broadcast PrimFloat.div diff stds with
          | None => None
          | Some q => Some (map PrimFloat.abs q)
          end
      end
  end.

(** [AnomalyDetector._statistical_anomaly_score] on doubles: statement by
    statement what [statistical_anomaly_score] is over the reals. *)
Definition statistical_anomaly_score_float
  (data_buffer : list (list float)) (features : list float) : float :=
  if (length data_buffer <? 5)%nat then 0%float
  else
    let historical_data := removelast data_buffer in
    if (length historical_data =? 0)%nat then 0%float
    else
      match z_scores_float historical_data features with
      | None => 0%float
      | Some zs =>
          match NpFloat.max zs with
          | None => 0%float
          | Some max_z_score =>
              NpFloat.py_min (PrimFloat.div max_z_score 3%float) 1%float
          end
      end.

(** A sample of one feature, 1e308: a finite double. *)
Definition huge_sample : list float := [1e308%float].

#[local] Set Warnings "+inexact-float".

(** [AnomalyDetector.predict] on doubles, for as long as the buffer holds
    fewer than 20 samples.  Up to there [predict] consults no estimator and
    reads no trained flag, so the detector is the fields below; where the
    buffer has reached 20 samples the call is outside this fragment
    ([None]). *)
Module FloatDetector.

Record AnomalyDetector : Type := mkDetector {
  buffer_size : nat;
  data_buffer : list (list float);
  feature_count : option nat;
  prediction_count : nat;
  anomaly_history : list float
}.

(** [AnomalyDetector.__init__]. *)
Definition init (buffer_size : nat) : AnomalyDetector :=
  {| buffer_size := buffer_size;
     data_buffer := [];
     feature_count := None;
     prediction_count := 0;
     anomaly_history := [] |}.

Definition predict (s : AnomalyDetector) (features : list float)
  : option (float * AnomalyDetector) :=
  let s := mkDetector (buffer_size s) (data_buffer s) (feature_count s)
             (S (prediction_count s)) (anomaly_history s) in
  if (length features =? 0)%nat then Some (0%float, s)
  else
    let s := match feature_count s with
             | None =>
                 mkDetector (buffer_size s) (data_buffer s)
                   (Some (length features)) (prediction_count s)
                   (anomaly_history s)
             | Some _ => s
             end in
    if match feature_count s with
       | None => true
       | Some n => negb (length features =? n)%nat
       end
    then Some (0%float, s)
    else
      let s := mkDetector (buffer_size s)
                 (Deque.append (buffer_size s) (data_buffer s) features)
                 (feature_count s) (prediction_count s) (anomaly_history s) in
      if (length (data_buffer s) <? 20)%nat then
        let anomaly_score :=
          statistical_anomaly_score_float (data_buffer s) features in
        Some (anomaly_score,
              mkDetector (buffer_size s) (data_buffer s) (feature_count s)
                (prediction_count s)
                (Deque.append 100 (anomaly_history s) anomaly_score))
      else None.

(** One [predict] per vector, in order: the scores and the detector at the
    end. *)
Fixpoint predict_all (xs : list (list float)) (s : AnomalyDetector)
  : option (list float * AnomalyDetector) :=
  match xs with
  | [] => Some ([], s)
  | x :: rest =>
      match predict s x with
      | None => None
      | Some (score, s') =>
          match predict_all rest s' with
          | None => None
          | Some (scores, s'') => Some (score :: scores, s'')
          end
      end
  end.

End FloatDetector.



(** ** The detector *)

(** The interface of the two scikit-learn estimators.  Python mutates the
    objects in place: [fit] takes the object as it is and leaves it in a new
    state, whether it returns or raises. *)
Class Estimators : Type := {
  (** The fitted state of a [StandardScaler] and of an [IsolationForest]. *)
  Scaler : Type;
  Forest : Type;
  (** The objects as their constructors leave them (not fitted). *)
  scaler_new : Scaler;
  forest_new : Forest;
  (** [scaler.fit(X)] and [model.fit(X)]: the object afterwards, and whether
      the call returned ([true]) or raised ([false]). *)
  scaler_fit : Scaler -> list (list R) -> Scaler * bool;
  forest_fit : Forest -> list (list R) -> Forest * bool;
  (** [scaler.transform(X)], [model.predict(X)] and
      [model.decision_function(X)] read the object; [None] when they raise. *)
  scaler_transform : Scaler -> list (list R) -> option (list (list R));
  forest_predict : Forest -> list (list R) -> option (list Z);
  forest_decision : Forest -> list (list R) -> option (list R)
}.

Section Detector.

Context {E : Estimators}.

Record AnomalyDetector : Type := mkDetector {
  buffer_size : nat;
  threshold : R;
  data_buffer : list (list R);
  model : Forest;
  scaler : Scaler;
  is_trained : bool;
  feature_count : option nat;
  prediction_count : nat;
  anomaly_count : nat;
  anomaly_history : list R;
  feature_means : option (list R);
  feature_stds : option (list R)
}.

(** [AnomalyDetector.__init__]. *)
Definition init (buffer_size : nat) (threshold : R) : AnomalyDetector :=
  {| buffer_size := buffer_size;
     threshold := threshold;
     data_buffer := [];
     model := forest_new;
     scaler := scaler_new;
     is_trained := false;
     feature_count := None;
     prediction_count := 0;
     anomaly_count := 0;
     anomaly_history := [];
     feature_means := None;
     feature_stds := None |}.

(** Field updates. *)
Definition set_data_buffer (b : list (list R)) (s : AnomalyDetector) :=
  mkDetector (buffer_size s) (threshold s) b (model s) (scaler s)
    (is_trained s) (feature_count s) (prediction_count s) (anomaly_count s)
    (anomaly_history s) (feature_means s) (feature_stds s).
Definition set_model (f : Forest) (s : AnomalyDetector) :=
  mkDetector (buffer_size s) (threshold s) (data_buffer s) f (scaler s)
    (is_trained s) (feature_count s) (prediction_count s) (anomaly_count s)
    (anomaly_history s) (feature_means s) (feature_stds s).
Definition set_scaler (c : Scaler) (s : AnomalyDetector) :=
  mkDetector (buffer_size s) (threshold s) (data_buffer s) (model s) c
    (is_trained s) (feature_count s) (prediction_count s) (anomaly_count s)
    (anomaly_history s) (feature_means s) (feature_stds s).
Definition set_is_trained (t : bool) (s : AnomalyDetector) :=
  mkDetector (buffer_size s) (threshold s) (data_buffer s) (model s)
    (scaler s) t (feature_count s) (prediction_count s) (anomaly_count s)
    (anomaly_history s) (feature_means s) (feature_stds s).
Definition set_feature_count (n : option nat) (s : AnomalyDetector) :=
  mkDetector (buffer_size s) (threshold s) (data_buffer s) (model s)
    (scaler s) (is_trained s) n (prediction_count s) (anomaly_count s)
    (anomaly_history s) (feature_means s) (feature_stds s).
Definition set_prediction_count (n : nat) (s : AnomalyDetector) :=
  mkDetector (buffer_size s) (threshold s) (data_buffer s) (model s)
    (scaler s) (is_trained s) (feature_count s) n (anomaly_count s)
    (anomaly_history s) (feature_means s) (feature_stds s).
Definition set_anomaly_count (n : nat) (s : AnomalyDetector) :=
  mkDetector (buffer_size s) (threshold s) (data_buffer s) (model s)
    (scaler s) (is_trained s) (feature_count s) (prediction_count s) n
    (anomaly_history s) (feature_means s) (feature_stds s).
Definition set_anomaly_history (h : list R) (s : AnomalyDetector) :=
  mkDetector (buffer_size s) (threshold s) (data_buffer s) (model s)
    (scaler s) (is_trained s) (feature_count s) (prediction_count s)
    (anomaly_count s) h (feature_means s) (feature_stds s).
Definition set_feature_stats (m d : option (list R)) (s : AnomalyDetector) :=
  mkDetector (buffer_size s) (threshold s) (data_buffer s) (model s)
    (scaler s) (is_trained s) (feature_count s) (prediction_count s)
    (anomaly_count s) (anomaly_history s) m d.

(** *** [update_model] *)

(** How far the [try] block of [update_model] gets. *)
Inductive fit_outcome : Type :=
| ArrayRaised                                  (* np.array(list(buffer)) *)
| ScalerFitRaised (c : Scaler)                 (* self.scaler.fit(X) *)
| TransformRaised (c : Scaler)                 (* self.scaler.transform(X) *)
| ForestFitRaised (c : Scaler) (m d : list R) (f : Forest)
                                               (* self.model.fit(X_scaled) *)
| ReportRaised (c : Scaler) (m d : list R) (f : Forest)
                                               (* self.model.predict(X_scaled) *)
| Fitted (c : Scaler) (m d : list R) (f : Forest).

(** The [try] block, statement by statement, on the objects it mutates. *)
Definition fit_round (s : AnomalyDetector) : fit_outcome :=
  let X := data_buffer s in
  match Np.shape X with
  | None => ArrayRaised
  | Some n =>
      match scaler_fit (scaler s) X with
      | (c, false) => ScalerFitRaised c
      | (c, true) =>
          match scaler_transform c X with
          | None => TransformRaised c
          | Some X_scaled =>
              let m := Np.mean0 X n in
              let d := Np.std0 X n in
              match forest_fit (model s) X_scaled with
              | (f, false) => ForestFitRaised c m d f
              | (f, true) =>
                  match forest_predict f X_scaled with
                  | None => ReportRaised c m d f
                  | Some _ => Fitted c m d f
                  end
              end
          end
      end
  end.

(** The detector after the [try] block and its [except] clause: every
    assignment made before the exception stays, and the handler sets
    [is_trained = False]. *)
Definition apply_fit (s : AnomalyDetector) (o : fit_outcome) : AnomalyDetector :=
  match o with
  | ArrayRaised => set_is_trained false s
  | ScalerFitRaised c => set_is_trained false (set_scaler c s)
  | TransformRaised c => set_is_trained false (set_scaler c s)
  | ForestFitRaised c m d f =>
      set_is_trained false
        (set_model f (set_feature_stats (Some m) (Some d) (set_scaler c s)))
  | ReportRaised c m d f =>
      set_is_trained false
        (set_model f (set_feature_stats (Some m) (Some d) (set_scaler c s)))
  | Fitted c m d f =>
      set_is_trained true
        (set_model f (set_feature_stats (Some m) (Some d) (set_scaler c s)))
  end.

(** Whether the fitting work raised. *)
Definition fit_failed (o : fit_outcome) : bool :=
  match o with Fitted _ _ _ _ => false | _ => true end.

(** [AnomalyDetector.update_model]. *)
Definition update_model (s : AnomalyDetector) : AnomalyDetector :=
  if (length (data_buffer s) <? 20)%nat then s
  else apply_fit s (fit_round s).

(** *** [predict] *)

(** The [try] block of the trained branch up to [final_score]: scale the
    query, ask the forest for its label and its decision value, blend with
    the statistical score.  [None] when one of the calls raises; nothing has
    been assigned by then. *)
Definition trained_score (s : AnomalyDetector) (features : list R) : option R :=
  match scaler_transform (scaler s) [features] with
  | None => None
  | Some features_scaled =>
      match forest_predict (model s) features_scaled with
      | None | Some [] => None
      | Some (prediction :: _) =>
          match forest_decision (model s) features_scaled with
          | None | Some [] => None
          | Some (decision_score :: _) =>
              let anomaly_score := normalize_score decision_score in
              let stat_score :=
                statistical_anomaly_score (data_buffer s) features in
              Some (0.7 * anomaly_score + 0.3 * stat_score)
          end
      end
  end.

(** [self.anomaly_history.append(x)], a deque of bound 100. *)
Definition record_score (x : R) (s : AnomalyDetector) : AnomalyDetector :=
  set_anomaly_history (Deque.append 100 (anomaly_history s) x) s.

(** The first statement of [predict]. *)
Definition count_prediction (s : AnomalyDetector) : AnomalyDetector :=
  set_prediction_count (S (prediction_count s)) s.

(** "Store feature count on first prediction". *)
Definition store_feature_count (features : list R) (s : AnomalyDetector)
  : AnomalyDetector :=
  match feature_count s with
  | None => set_feature_count (Some (length features)) s
  | Some _ => s
  end.

(** [len(features) != self.feature_count]. *)
Definition dimension_mismatch (features : list R) (s : AnomalyDetector) : bool :=
  match feature_count s with
  | None => true
  | Some n => negb (length features =? n)%nat
  end.

(** [self.data_buffer.append(features)]. *)
Definition buffer_sample (features : list R) (s : AnomalyDetector)
  : AnomalyDetector :=
  set_data_buffer (Deque.append (buffer_size s) (data_buffer s) features) s.

(** "Train model if not yet trained or needs update". *)
Definition auto_train (s : AnomalyDetector) : AnomalyDetector :=
  if negb (is_trained s) && (buffer_size s <=? length (data_buffer s))%nat
  then update_model s else s.

(** [predict] from the point where the sample is in the buffer. *)
Definition score_buffered (features : list R) (s : AnomalyDetector)
  : R * AnomalyDetector :=
  if (length (data_buffer s) <? 20)%nat then
    let anomaly_score := statistical_anomaly_score (data_buffer s) features in
    (anomaly_score, record_score anomaly_score s)
  else
    let s := auto_train s in
    if is_trained s then
      match trained_score s features with
      | Some final_score =>
          (final_score,
           set_anomaly_count
             (if Rgt_dec final_score (threshold s)
              then S (anomaly_count s) else anomaly_count s)
             (record_score final_score s))
      | None =>
          (statistical_anomaly_score (data_buffer s) features, s)
      end
    else
      let anomaly_score := statistical_anomaly_score (data_buffer s) features in
      (anomaly_score, record_score anomaly_score s).

(** [AnomalyDetector.predict]: the score returned and the detector
    afterwards. *)
Definition predict (s : AnomalyDetector) (features : list R)
  : R * AnomalyDetector :=
  let s := count_prediction s in
  if (length features =? 0)%nat then (0, s)
  else
    let s := store_feature_count features s in
    if dimension_mismatch features s then (0, s)
    else score_buffered features (buffer_sample features s).

(** *** [get_statistics] and [reset] *)

Record Statistics : Type := mkStatistics {
  stat_is_trained : bool;
  stat_prediction_count : nat;
  stat_anomaly_count : nat;
  stat_anomaly_rate : R;
  stat_buffer_size : nat;
  stat_recent_avg_score : R;
  stat_threshold : R
}.

(** [AnomalyDetector.get_statistics]. *)
Definition get_statistics (s : AnomalyDetector) : Statistics :=
  {| stat_is_trained := is_trained s;
     stat_prediction_count := prediction_count s;
     stat_anomaly_count := anomaly_count s;
     stat_anomaly_rate :=
       if (0 <? prediction_count s)%nat
       then INR (anomaly_count s) / INR (prediction_count s) else 0;
     stat_buffer_size := length (data_buffer s);
     stat_recent_avg_score :=
       if (0 <? length (anomaly_history s))%nat
       then Np.mean (anomaly_history s) else 0;
     stat_threshold := threshold s |}.

(** [AnomalyDetector.reset]. *)
Definition reset (s : AnomalyDetector) : AnomalyDetector :=
  set_anomaly_count 0
    (set_prediction_count 0
       (set_is_trained false
          (set_anomaly_history [] (set_data_buffer [] s)))).

(** *** Vocabulary for the properties *)

(** [predict] takes the vector into the buffer: it is not empty and has the
    recorded dimension, if one is recorded. *)
Definition accepted (s : AnomalyDetector) (features : list R) : Prop :=
  features <> [] /\
  forall n, feature_count s = Some n -> length features = n.

(** The detector as [predict] has it once an accepted sample is in the
    buffer and the automatic training, if due, has run. *)
Definition scoring_state (s : AnomalyDetector) (features : list R)
  : AnomalyDetector :=
  let s := buffer_sample features
             (store_feature_count features (count_prediction s)) in
  if (length (data_buffer s) <? 20)%nat then s else auto_train s.

(** [predict] enters the branch [if self.is_trained:]. *)
Definition trained_path (s : AnomalyDetector) (features : list R) : bool :=
  let s := scoring_state s features in
  (20 <=? length (data_buffer s))%nat && is_trained s.

(** Every buffered sample has the recorded dimension. *)
Definition well_shaped (s : AnomalyDetector) : Prop :=
  match feature_count s with
  | None => data_buffer s = []
  | Some n => Forall (fun r => length r = n) (data_buffer s)
  end.

(** The detectors a program can hold: a freshly constructed one, and what
    the three mutating methods make of it. *)
Inductive reachable : AnomalyDetector -> Prop :=
| reach_init (b : nat) (t : R) : reachable (init b t)
| reach_predict (s : AnomalyDetector) (features : list R) :
    reachable s -> reachable (snd (predict s features))
| reach_update (s : AnomalyDetector) :
    reachable s -> reachable (update_model s)
| reach_reset (s : AnomalyDetector) :
    reachable s -> reachable (reset s).

End Detector.

(** [predict] on a sequence of samples, the scores dropped. *)
Definition feed {E : Estimators} (samples : list (list R)) (s : AnomalyDetector)
  : AnomalyDetector :=
  fold_left (fun s features => snd (predict s features)) samples s.

(** [predict] on a sequence of samples: the scores in order, and the
    detector afterwards. *)
Fixpoint predict_all {E : Estimators} (samples : list (list R))
  (s : AnomalyDetector) : list R * AnomalyDetector :=
  match samples with
  | [] => ([], s)
  | features :: rest =>
      let r := predict s features in
      let rs := predict_all rest (snd r) in
      (fst r :: fst rs, snd rs)
  end.

(** Two untrained detectors that differ at most in what they hold of the
    estimators and in [b] not having recorded the dimension [n] yet. *)
Definition cold_equiv {E : Estimators} (n : nat) (a b : AnomalyDetector) : Prop :=
  buffer_size a = buffer_size b /\
  threshold a = threshold b /\
  data_buffer a = data_buffer b /\
  is_trained a = false /\ is_trained b = false /\
  prediction_count a = prediction_count b /\
  anomaly_count a = anomaly_count b /\
  anomaly_history a = anomaly_history b /\
  feature_count a = Some n /\
  (feature_count b = Some n \/ feature_count b = None).

(** The calls a program can make on a detector it holds, and a sequence of
    them. *)
Inductive operation : Type :=
| Predict (features : list R)
| UpdateModel
| Reset.

Definition apply_operation {E : Estimators} (s : AnomalyDetector)
  (o : operation) : AnomalyDetector :=
  match o with
  | Predict features => snd (predict s features)
  | UpdateModel => update_model s
  | Reset => reset s
  end.

Definition run {E : Estimators} (ops : list operation) (s : AnomalyDetector)
  : AnomalyDetector :=
  fold_left apply_operation ops s.

(** The scaler and the forest a call of [update_model] leaves when its
    fitting work returns: a training round that succeeded.  [None] when the
    call does not fit (fewer than 20 samples) or a statement of the fitting
    work raises. *)
Definition fitted_pair {E : Estimators} (s : AnomalyDetector)
  : option (Scaler * Forest) :=
  if (length (data_buffer s) <? 20)%nat then None
  else match fit_round s with
       | Fitted c _ _ f => Some (c, f)
       | _ => None
       end.

(** The same for the training round [predict] runs itself, along the
    statements of [predict]: the vector is accepted and buffered, 20 samples
    or more are buffered, the detector is untrained and the buffer full. *)
Definition predict_fitted_pair {E : Estimators} (s : AnomalyDetector)
  (features : list R) : option (Scaler * Forest) :=
  let s := count_prediction s in
  if (length features =? 0)%nat then None
  else
    let s := store_feature_count features s in
    if dimension_mismatch features s then None
    else
      let s := buffer_sample features s in
      if (length (data_buffer s) <? 20)%nat then None
      else if negb (is_trained s) && (buffer_size s <=? length (data_buffer s))%nat
           then fitted_pair s else None.

Definition operation_fitted_pair {E : Estimators} (s : AnomalyDetector)
  (o : operation) : option (Scaler * Forest) :=
  match o with
  | Predict features => predict_fitted_pair s features
  | UpdateModel => fitted_pair s
  | Reset => None
  end.

(** A detector together with its own history: [last] is the pair left by the
    most recent training round that succeeded among the calls made on this
    detector so far, [None] while there was none.  A call that trains
    successfully replaces it; every other call leaves it. *)
Fixpoint replay {E : Estimators} (ops : list operation) (s : AnomalyDetector)
  (last : option (Scaler * Forest)) : AnomalyDetector * option (Scaler * Forest) :=
  match ops with
  | [] => (s, last)
  | o :: rest =>
      replay rest (apply_operation s o)
        (match operation_fitted_pair s o with
         | Some fitted => Some fitted
         | None => last
         end)
  end.

(** What ties a detector to its history: a set trained flag means that the
    scaler and the forest it holds are the pair of the last round that
    succeeded. *)
Definition flag_vouches {E : Estimators} (s : AnomalyDetector)
  (last : option (Scaler * Forest)) : Prop :=
  is_trained s = true -> last = Some (scaler s, model s).

(** The history that makes the overfull example: twenty samples, the
    periodic [update_model], one more sample. *)
Definition overfull_history : list operation :=
  map Predict (repeat [0] 20) ++ [UpdateModel; Predict [0]].

(** A test double for the two estimators.  An object's state is the number of
    fits it has been through.  The scaler leaves the data as they are; the
    forest labels every row an inlier with decision value 0.  The forest's
    [fit] raises when given more than [capacity] rows, and its
    [decision_function] raises unless [decides]; an object that was never
    fitted raises on use. *)
Definition double (capacity : nat) (decides : bool) : Estimators :=
  {| Scaler := nat;
     Forest := nat;
     scaler_new := 0%nat;
     forest_new := 0%nat;
     scaler_fit := fun c _ => (S c, true);
     forest_fit := fun f X =>
       if (length X <=? capacity)%nat then (S f, true) else (f, false);
     scaler_transform := fun c X =>
       if (c =? 0)%nat then None else Some X;
     forest_predict := fun f X =>
       if (f =? 0)%nat then None else Some (map (fun _ => 1%Z) X);
     forest_decision := fun f X =>
       if (f =? 0)%nat || negb decides then None
       else Some (map (fun _ => 0) X) |}.

(** A detector over the double, built the way the service builds one: the
    default buffer of 50 and threshold 0.7, twenty samples [0.0], then the
    periodic [update_model]. *)
Definition trained_example (decides : bool) : @AnomalyDetector (double 20 decides) :=
  update_model (feed (repeat [0] 20) (init 50 0.7)).

(** The same detector one sample later: 21 samples are buffered, more than
    the double's forest takes in a fit. *)
Definition overfull_example : @AnomalyDetector (double 20 true) :=
  feed [[0]] (trained_example true).

(** ** The stream session: message dispatch *)

(** What [json.loads] returns.  A decoded object is a Python dict, kept as an
    association list in which the first binding of a key is the dict's. *)
#[local] Unset Elimination Schemes.
Inductive json : Type :=
| JNull
| JBool (b : bool)
| JNum (r : R)
| JStr (s : string)
| JArr (l : list json)
| JObj (m : list (string * json)).
#[local] Set Elimination Schemes.

(** [data.get(key)]. *)
Fixpoint dict_get (key : string) (m : list (string * json)) : option json :=
  match m with
  | [] => None
  | (k, v) :: m' => if String.eqb k key then Some v else dict_get key m'
  end.

(** [key in data]. *)
Definition dict_mem (key : string) (m : list (string * json)) : bool :=
  match dict_get key m with Some _ => true | None => false end.

(** [msg_type == 'connection']. *)
Definition is_connection (msg_type : option json) : bool :=
  match msg_type with
  | Some (JStr s) => String.eqb s "connection"
  | _ => false
  end.

(** A decoded frame is no sensor data and no connection message: it is no
    object that says ["connection"] or carries both marker
    fields. *)
Definition unrecognized (data : json) : Prop :=
  forall m, data = JObj m ->
    dict_get "type" m <> Some (JStr "connection") /\
    ~ ((exists t, dict_get "timestamp" m = Some t) /\
       (exists o, dict_get "orientation" m = Some o)).

(** The exceptions that can arise in [_handle_message]. *)
Inductive exn : Type :=
| JSONDecodeError            (* json.loads on a malformed frame *)
| AttributeError             (* data.get on a decoded value that is no dict *)
| HandlerException           (* an Exception raised by the data handler *)
| HandlerBaseException.      (* a BaseException raised by it: cancellation *)

(** [except Exception] catches all of them but the last. *)
Definition is_Exception (e : exn) : bool :=
  match e with HandlerBaseException => false | _ => true end.

(** What the session writes to its logger. *)
Inductive log_entry : Type :=
| LogConnectionStatus (status : option json)
| LogUnknown (data : json)
| LogProgress (received : nat)
| LogDecodeError (message : string)
| LogHandlingError (e : exn).

Section Session.

(** The state of whatever stands behind the registered data handler. *)
Variable H : Type.

(** [json.loads]; [None] when it raises [JSONDecodeError]. *)
Variable json_loads : string -> option json.

(** [self.on_data_callback]: the handler's state afterwards, and the
    exception it raised, if any.  The handler's state is kept apart from the
    client's own fields.  The handler the service registers,
    [process_sensor_data], does reach back into the client: it ends with
    [send_anomaly_score], which raises [messages_sent] when the score is
    delivered.  That write is not part of this section: here [messages_sent]
    is carried along unchanged, and nothing proved of a handled frame speaks
    of it; the sender is modelled on its own in the connection section. *)
Variable on_data_callback : json -> H -> H * option exn.

Record Client : Type := mkClient {
  connected : bool;
  should_reconnect : bool;
  messages_received : nat;
  messages_sent : nat;
  reconnect_count : nat;
  handler : H;
  (** the payloads the handler was called with, oldest first *)
  forwarded : list json;
  log : list log_entry
}.

(** [SensorWebSocketClient.__init__], around a handler in state [h]. *)
Definition client_init (h : H) : Client :=
  {| connected := false;
     should_reconnect := true;
     messages_received := 0;
     messages_sent := 0;
     reconnect_count := 0;
     handler := h;
     forwarded := [];
     log := [] |}.

Definition count_received (c : Client) : Client :=
  mkClient (connected c) (should_reconnect c) (S (messages_received c))
    (messages_sent c) (reconnect_count c) (handler c) (forwarded c) (log c).

Definition write_log (e : log_entry) (c : Client) : Client :=
  mkClient (connected c) (should_reconnect c) (messages_received c)
    (messages_sent c) (reconnect_count c) (handler c) (forwarded c)
    (log c ++ [e]).

(** [await self.on_data_callback(data)]. *)
Definition call_handler (data : json) (c : Client) : Client * option exn :=
  let (h, e) := on_data_callback data (handler c) in
  (mkClient (connected c) (should_reconnect c) (messages_received c)
     (messages_sent c) (reconnect_count c) h (forwarded c ++ [data]) (log c),
   e).

(** "Log progress periodically". *)
Definition log_progress (c : Client) : Client :=
  if (messages_received c mod 100 =? 0)%nat
  then write_log (LogProgress (messages_received c)) c else c.

(** The [try] block of [_handle_message]: the client afterwards and the
    exception that left the block, if any. *)
Definition handle_body (message : string) (c : Client) : Client * option exn :=
  let c := count_received c in
  match json_loads message with
  | None => (c, Some JSONDecodeError)
  | Some (JObj data) =>
      let msg_type := dict_get "type" data in
      if is_connection msg_type then
        (log_progress
           (write_log (LogConnectionStatus (dict_get "status" data)) c), None)
      else if dict_mem "timestamp" data && dict_mem "orientation" data then
        match call_handler (JObj data) c with
        | (c, Some e) => (c, Some e)
        | (c, None) => (log_progress c, None)
        end
      else
        (log_progress (write_log (LogUnknown (JObj data)) c), None)
  | Some _ => (c, Some AttributeError)
  end.

(** [SensorWebSocketClient._handle_message]: the [try] block under its two
    [except] clauses.  The exception returned is one that neither caught. *)
Definition handle_message (message : string) (c : Client) : Client * option exn :=
  match handle_body message c with
  | (c, None) => (c, None)
  | (c, Some JSONDecodeError) => (write_log (LogDecodeError message) c, None)
  | (c, Some e) =>
      if is_Exception e then (write_log (LogHandlingError e) c, None)
      else (c, Some e)
  end.

(** [async for message in self.websocket: await self._handle_message(message)]
    over the frames the channel delivers: an exception that leaves
    [_handle_message] ends the iteration with the remaining frames unread. *)
Fixpoint receive_frames (frames : list string) (c : Client)
  : Client * option exn :=
  match frames with
  | [] => (c, None)
  | message :: rest =>
      match handle_message message c with
      | (c, None) => receive_frames rest c
      | (c, Some e) => (c, Some e)
      end
  end.

End Session.

Arguments mkClient {H}.
Arguments connected {H}.
Arguments should_reconnect {H}.
Arguments messages_received {H}.
Arguments messages_sent {H}.
Arguments reconnect_count {H}.
Arguments handler {H}.
Arguments forwarded {H}.
Arguments log {H}.
Arguments client_init {H}.
Arguments count_received {H}.
Arguments write_log {H}.
Arguments log_progress {H}.
Arguments call_handler {H}.
Arguments handle_body {H}.
Arguments handle_message {H}.
Arguments receive_frames {H}.

(** Stand-ins for the session's collaborators: a decoder that knows three
    frames by name and fails on every other, and a data handler that counts
    its calls and never raises. *)
Definition stub_loads (message : string) : option json :=
  if String.eqb message "greeting" then
    Some (JObj [("type"%string, JStr "connection");
                ("status"%string, JStr "connected")])
  else if String.eqb message "sample" then
    Some (JObj [("timestamp"%string, JStr "2024-01-01T00:00:00Z");
                ("orientation"%string, JArr [JNum 1; JNum 0; JNum 0; JNum 0]);
                ("confidence"%string, JNum 1)])
  else if String.eqb message "array" then Some (JArr [])
  else None.

Definition stub_callback (data : json) (calls : nat) : nat * option exn :=
  (S calls, None).

(** A data handler that is cancelled on its first call: it raises a
    [BaseException]. *)
Definition stub_cancelled (data : json) (calls : nat) : nat * option exn :=
  (S calls, Some HandlerBaseException).

(** A decoder that takes every frame for a heartbeat of the client's own. *)
Definition stub_echo (message : string) : option json :=
  Some (JObj [("type"%string, JStr "heartbeat");
              ("timestamp"%string, JStr message)]).

(** A payload the session treats as sensor data: an object that does not say
    ["connection"] and carries both marker fields. *)
Definition sensor_payload (data : json) : Prop :=
  exists m, data = JObj m /\
    dict_get "type" m <> Some (JStr "connection") /\
    (exists t, dict_get "timestamp" m = Some t) /\
    (exists o, dict_get "orientation" m = Some o).

(** ** The stream session: the connection *)

(** The websockets library, the network behind it, the clock and
    [json.dumps].  Every call may change the state of the outside world;
    a call that raises is one that gives [None] or [false]. *)
Class Transport : Type := {
  (** the network, the peer and the clock *)
  Net : Type;
  (** a connection object, as [websockets.connect] returns it *)
  Sock : Type;
  (** [websockets.connect(url, ...)]; [None] when it raises *)
  ws_connect : string -> Net -> Net * option Sock;
  (** [websocket.recv()]; [None] when it raises *)
  ws_recv : Sock -> Net -> Net * option string;
  (** [websocket.send(text)]; [false] when it raises *)
  ws_send : Sock -> string -> Net -> Net * bool;
  (** [websocket.close()]; [false] when it raises *)
  ws_close : Sock -> Net -> Net * bool;
  (** [datetime.now(timezone.utc).isoformat()] *)
  now_iso : Net -> string;
  (** [json.dumps] *)
  json_dumps : json -> string
}.

Section Connection.

Context {T : Transport}.
Variable H : Type.

(** A [SensorWebSocketClient] with the fields [_handle_message] does not
    use, and the outside world it talks to.  [slept] lists the
    [asyncio.sleep] calls made so far. *)
Record Link : Type := mkLink {
  client : Client H;
  url : string;
  reconnect_interval : R;
  websocket : option Sock;
  net : Net;
  slept : list R
}.

Definition set_client (c : Client H) (l : Link) : Link :=
  mkLink c (url l) (reconnect_interval l) (websocket l) (net l) (slept l).
Definition set_websocket (w : option Sock) (l : Link) : Link :=
  mkLink (client l) (url l) (reconnect_interval l) w (net l) (slept l).
Definition set_net (n : Net) (l : Link) : Link :=
  mkLink (client l) (url l) (reconnect_interval l) (websocket l) n (slept l).
Definition sleep (seconds : R) (l : Link) : Link :=
  mkLink (client l) (url l) (reconnect_interval l) (websocket l) (net l)
    (slept l ++ [seconds]).

Definition set_connected (b : bool) (l : Link) : Link :=
  let c := client l in
  set_client
    (mkClient b (should_reconnect c) (messages_received c) (messages_sent c)
       (reconnect_count c) (handler c) (forwarded c) (log c)) l.
Definition set_should_reconnect (b : bool) (l : Link) : Link :=
  let c := client l in
  set_client
    (mkClient (connected c) b (messages_received c) (messages_sent c)
       (reconnect_count c) (handler c) (forwarded c) (log c)) l.
Definition count_sent (l : Link) : Link :=
  let c := client l in
  set_client
    (mkClient (connected c) (should_reconnect c) (messages_received c)
       (S (messages_sent c)) (reconnect_count c) (handler c) (forwarded c)
       (log c)) l.
Definition count_reconnect (l : Link) : Link :=
  let c := client l in
  set_client
    (mkClient (connected c) (should_reconnect c) (messages_received c)
       (messages_sent c) (S (reconnect_count c)) (handler c) (forwarded c)
       (log c)) l.

(** [SensorWebSocketClient.__init__]. *)
Definition link_init (url : string) (h : H) (reconnect_interval : R) (n : Net)
  : Link :=
  {| client := client_init h;
     url := url;
     reconnect_interval := reconnect_interval;
     websocket := None;
     net := n;
     slept := [] |}.

(** [SensorWebSocketClient.connect]: the link afterwards, and whether the
    call returned ([true]) or raised ([false]). *)
Definition connect (l : Link) : Link * bool :=
  match ws_connect (url l) (net l) with
  | (n, None) => (set_connected false (set_net n l), false)
  | (n, Some sock) =>
      let l := set_connected true (set_websocket (Some sock) (set_net n l)) in
      match ws_recv sock n with
      | (n, Some welcome_msg) => (set_net n l, true)
      | (n, None) => (set_connected false (set_net n l), false)
      end
  end.

(** [SensorWebSocketClient._reconnect]. *)
Definition reconnect (l : Link) : Link :=
  let l := count_reconnect l in
  let l := sleep (reconnect_interval l) l in
  fst (connect l).

(** [SensorWebSocketClient.disconnect]. *)
Definition disconnect (l : Link) : Link :=
  let l := set_should_reconnect false l in
  let l := set_connected false l in
  match websocket l with
  | Some sock => set_net (fst (ws_close sock (net l))) l
  | None => l
  end.

(** The three outbound messages. *)
Definition prediction_message (score : R) (timestamp : string) : json :=
  JObj [("type"%string, JStr "anomaly_prediction");
        ("score"%string, JNum score);
        ("timestamp"%string, JStr timestamp)].

Definition command_message (action : string)
  (parameters : option (list (string * json))) (timestamp : string) : json :=
  JObj [("type"%string, JStr "command");
        ("action"%string, JStr action);
        ("parameters"%string,
         JObj (match parameters with Some p => p | None => [] end));
        ("timestamp"%string, JStr timestamp)].

Definition heartbeat_message (timestamp : string) : json :=
  JObj [("type"%string, JStr "heartbeat");
        ("timestamp"%string, JStr timestamp)].

(** [if not self.connected or not self.websocket]: the socket to send on,
    if there is one. *)
Definition sending_socket (l : Link) : option Sock :=
  if connected (client l) then websocket l else None.

(** [SensorWebSocketClient.send_anomaly_score]. *)
Definition send_anomaly_score (score : R) (l : Link) : Link :=
  match sending_socket l with
  | None => l
  | Some sock =>
      let message := prediction_message score (now_iso (net l)) in
      match ws_send sock (json_dumps message) (net l) with
      | (n, true) => count_sent (set_net n l)
      | (n, false) => set_net n l
      end
  end.

(** [SensorWebSocketClient.send_command]. *)
Definition send_command (action : string)
  (parameters : option (list (string * json))) (l : Link) : Link :=
  match sending_socket l with
  | None => l
  | Some sock =>
      let message := command_message action parameters (now_iso (net l)) in
      set_net (fst (ws_send sock (json_dumps message) (net l))) l
  end.

(** [SensorWebSocketClient.send_heartbeat]. *)
Definition send_heartbeat (l : Link) : Link :=
  match sending_socket l with
  | None => l
  | Some sock =>
      let message := heartbeat_message (now_iso (net l)) in
      set_net (fst (ws_send sock (json_dumps message) (net l))) l
  end.

(** What a caller can ask the client to put on the wire. *)
Inductive outbound : Type :=
| SendScore (score : R)
| SendCommand (action : string) (parameters : option (list (string * json)))
| SendHeartbeat.

Definition send (l : Link) (o : outbound) : Link :=
  match o with
  | SendScore score => send_anomaly_score score l
  | SendCommand action parameters => send_command action parameters l
  | SendHeartbeat => send_heartbeat l
  end.

(** The message a send hands to [json.dumps], stamped [timestamp]. *)
Definition outbound_message (o : outbound) (timestamp : string) : json :=
  match o with
  | SendScore score => prediction_message score timestamp
  | SendCommand action parameters => command_message action parameters timestamp
  | SendHeartbeat => heartbeat_message timestamp
  end.

End Connection.

Arguments mkLink {T H}.
Arguments client {T H}.
Arguments url {T H}.
Arguments reconnect_interval {T H}.
Arguments websocket {T H}.
Arguments net {T H}.
Arguments slept {T H}.
Arguments link_init {T H}.
Arguments connect {T H}.
Arguments reconnect {T H}.
Arguments disconnect {T H}.
Arguments sending_socket {T H}.
Arguments send_anomaly_score {T H}.
Arguments send_command {T H}.
Arguments send_heartbeat {T H}.
Arguments send {T H}.
Arguments set_client {T H}.
Arguments set_websocket {T H}.
Arguments set_net {T H}.
Arguments sleep {T H}.
Arguments set_connected {T H}.
Arguments set_should_reconnect {T H}.
Arguments count_sent {T H}.
Arguments count_reconnect {T H}.

(** A transport double.  The network is the list of frames that got through;
    a connection is named by a number.  Dialling succeeds when [up] and the
    peer then greets; sending succeeds on the connection numbered 1 only. *)
Definition wire (up : bool) : Transport :=
  {| Net := list string;
     Sock := nat;
     ws_connect := fun _ n => (n, if up then Some 1%nat else None);
     ws_recv := fun _ n => (n, Some "greeting"%string);
     ws_send := fun sock text n =>
       if (sock =? 1)%nat then (n ++ [text], true) else (n, false);
     ws_close := fun _ n => (n, true);
     now_iso := fun _ => "2024-01-01T00:00:00+00:00"%string;
     json_dumps := fun v =>
       match v with
       | JObj (("type"%string, JStr t) :: _) => t
       | _ => "?"%string
       end |}.

(** Whether an outbound request is a score. *)
Definition is_score (o : outbound) : bool :=
  match o with SendScore _ => true | _ => false end.

(** ** The service *)

(** [d.get(key, default)] on a dict. *)
Definition get_default (key : string) (m : list (string * json)) (default : json)
  : json :=
  match dict_get key m with Some v => v | None => default end.

(** [v.get(key, default)] on whatever [v] is: only a dict has [get], every
    other value raises [AttributeError] ([None]). *)
Definition py_get (v : json) (key : string) (default : json) : option json :=
  match v with
  | JObj m => Some (get_default key m default)
  | _ => None
  end.

(** A value as an operand of [**]: a number, or a bool, which Python takes
    as 0 or 1; every other value raises [TypeError] ([None]). *)
Definition as_number (v : json) : option R :=
  match v with
  | JNum r => Some r
  | JBool b => Some (if b then 1 else 0)
  | _ => None
  end.

Definition zeros3 : list json := [JNum 0; JNum 0; JNum 0].

(** The [try] block of [MLService._extract_features]; [None] when a
    statement raises.  The exceptions modelled are those of a value of the
    wrong kind ([AttributeError], [TypeError]).  The magnitudes are computed
    in the reals, so the [OverflowError] that [**] raises on a float whose
    square leaves binary64 (1e200, say) has no counterpart: on such a payload
    the code returns the zero vector and this function a vector. *)
Definition extract_features_try (sensor_data : list (string * json))
  : option (list json) :=
  let raw_accel := get_default "raw_acceleration" sensor_data (JObj []) in
  let raw_gyro := get_default "raw_gyroscope" sensor_data (JObj []) in
  match py_get raw_accel "x" (JNum 0), py_get raw_accel "y" (JNum 0),
        py_get raw_accel "z" (JNum 0) with
  | Some ax, Some ay, Some az =>
      match py_get raw_gyro "x" (JNum 0), py_get raw_gyro "y" (JNum 0),
            py_get raw_gyro "z" (JNum 0) with
      | Some gx, Some gy, Some gz =>
          let euler := get_default "euler_degrees" sensor_data (JArr zeros3) in
          let angles :=
            match euler with
            | JArr l => if (3 <=? length l)%nat then firstn 3 l else zeros3
            | _ => zeros3
            end in
          let velocity := get_default "velocity" sensor_data (JObj []) in
          match py_get velocity "x" (JNum 0), py_get velocity "y" (JNum 0),
                py_get velocity "z" (JNum 0) with
          | Some vx, Some vy, Some vz =>
              match as_number vx, as_number vy, as_number vz with
              | Some vel_x, Some vel_y, Some vel_z =>
                  let vel_magnitude :=
                    sqrt (vel_x * vel_x + vel_y * vel_y + vel_z * vel_z) in
                  Some ([ax; ay; az] ++ [gx; gy; gz] ++ angles
                        ++ [JNum vel_magnitude]
                        ++ [get_default "gps_speed" sensor_data (JNum 0);
                            get_default "gps_heading" sensor_data (JNum 0)]
                        ++ [get_default "confidence" sensor_data (JNum 1);
                            get_default "system_health" sensor_data (JNum 1)])
              | _, _, _ => None
              end
          | _, _, _ => None
          end
      | _, _, _ => None
      end
  | _, _, _ => None
  end.

(** [MLService._extract_features]: the [except] clause answers every
    exception with the zero vector. *)
Definition extract_features (sensor_data : list (string * json)) : list json :=
  match extract_features_try sensor_data with
  | Some features => features
  | None => repeat (JNum 0) 14
  end.

(** The feature vector as the array of floats [np.array(features)] is when
    every feature is a number (or a bool); [None] otherwise. *)
Fixpoint as_floats (features : list json) : option (list R) :=
  match features with
  | [] => Some []
  | v :: rest =>
      match as_number v, as_floats rest with
      | Some r, Some rs => Some (r :: rs)
      | _, _ => None
      end
  end.

Record MLServiceConfig : Type := mkConfig {
  websocket_url : string;
  model_update_interval : nat;
  anomaly_threshold : R;
  config_buffer_size : nat;
  enable_logging : bool
}.

(** [MLServiceConfig.__init__]. *)
Definition default_config : MLServiceConfig :=
  {| websocket_url := "ws://127.0.0.1:8080";
     model_update_interval := 100;
     anomaly_threshold := 0.7;
     config_buffer_size := 50;
     enable_logging := true |}.

Section Service.

Context {E : Estimators} {T : Transport}.
Variable H : Type.

(** [alerts] lists the scores the service logged as ANOMALY DETECTED. *)
Record MLService : Type := mkService {
  config : MLServiceConfig;
  anomaly_detector : AnomalyDetector;
  ws_client : option (Link H);
  running : bool;
  sample_count : nat;
  alerts : list R
}.

(** [MLService.__init__]. *)
Definition service_init (config : MLServiceConfig) : MLService :=
  {| config := config;
     anomaly_detector :=
       init (config_buffer_size config) (anomaly_threshold config);
     ws_client := None;
     running := false;
     sample_count := 0;
     alerts := [] |}.

Definition set_anomaly_detector (d : AnomalyDetector) (v : MLService) :=
  mkService (config v) d (ws_client v) (running v) (sample_count v) (alerts v).
Definition set_ws_client (l : option (Link H)) (v : MLService) :=
  mkService (config v) (anomaly_detector v) l (running v) (sample_count v)
    (alerts v).
Definition count_sample (v : MLService) :=
  mkService (config v) (anomaly_detector v) (ws_client v) (running v)
    (S (sample_count v)) (alerts v).
Definition alert (score : R) (v : MLService) :=
  mkService (config v) (anomaly_detector v) (ws_client v) (running v)
    (sample_count v) (alerts v ++ [score]).

(** [MLService.process_sensor_data] from the feature vector on, for a vector
    of floats.  The one statement that can raise then is the remainder by a
    [model_update_interval] of 0; the [except] clause ends the call there. *)
Definition process_features (features : list R) (v : MLService) : MLService :=
  let v := count_sample v in
  let r := predict (anomaly_detector v) features in
  let anomaly_score := fst r in
  let v := set_anomaly_detector (snd r) v in
  let v := if Rgt_dec anomaly_score (anomaly_threshold (config v))
           then alert anomaly_score v else v in
  if (model_update_interval (config v) =? 0)%nat then v
  else
    let v := if (sample_count v mod model_update_interval (config v) =? 0)%nat
             then set_anomaly_detector (update_model (anomaly_detector v)) v
             else v in
    match ws_client v with
    | Some l => set_ws_client (Some (send_anomaly_score anomaly_score l)) v
    | None => v
    end.

(** [MLService.process_sensor_data] on a decoded payload; [None] when a
    feature is neither number nor bool: what numpy makes of such a vector is
    not modelled. *)
Definition process_sensor_data (sensor_data : list (string * json))
  (v : MLService) : option MLService :=
  match as_floats (extract_features sensor_data) with
  | Some features => Some (process_features features v)
  | None => None
  end.

(** The payloads of a stream, one after the other. *)
Fixpoint serve (stream : list (list (string * json))) (v : MLService)
  : option MLService :=
  match stream with
  | [] => Some v
  | sensor_data :: rest =>
      match process_sensor_data sensor_data v with
      | Some v => serve rest v
      | None => None
      end
  end.

(** What the service keeps true of its detector while it serves payloads:
    [k] samples seen, all of them taken into the buffer. *)
Definition serving (cfg : MLServiceConfig) (k : nat) (v : MLService) : Prop :=
  sample_count v = k /\
  prediction_count (anomaly_detector v) = k /\
  buffer_size (anomaly_detector v) = config_buffer_size cfg /\
  length (data_buffer (anomaly_detector v)) =
    Nat.min k (config_buffer_size cfg) /\
  (feature_count (anomaly_detector v) = Some 14%nat \/
   feature_count (anomaly_detector v) = None /\ k = 0%nat).

End Service.

Arguments serving {E T H}.
Arguments set_anomaly_detector {E T H}.
Arguments set_ws_client {E T H}.
Arguments count_sample {E T H}.
Arguments alert {E T H}.
Arguments mkService {E T H}.
Arguments config {E T H}.
Arguments anomaly_detector {E T H}.
Arguments ws_client {E T H}.
Arguments running {E T H}.
Arguments sample_count {E T H}.
Arguments alerts {E T H}.
Arguments service_init {E T H}.
Arguments process_features {E T H}.
Arguments process_sensor_data {E T H}.
Arguments serve {E T H}.

(** Two payloads: one as the backend sends it, one whose velocity block is a
    string. *)
Definition sample_payload : list (string * json) :=
  [("timestamp"%string, JStr "2024-01-01T00:00:00Z");
   ("orientation"%string, JArr [JNum 1; JNum 0; JNum 0; JNum 0]);
   ("raw_acceleration"%string,
    JObj [("x"%string, JNum 0); ("y"%string, JNum 0); ("z"%string, JNum 1)]);
   ("euler_degrees"%string, JArr [JNum 0; JNum 0; JNum 0]);
   ("velocity"%string,
    JObj [("x"%string, JNum 0); ("y"%string, JNum 0); ("z"%string, JNum 0)]);
   ("gps_speed"%string, JNum 0);
   ("confidence"%string, JNum 1)].

Definition broken_payload : list (string * json) :=
  [("timestamp"%string, JStr "2024-01-01T00:00:00Z");
   ("orientation"%string, JArr []);
   ("velocity"%string, JStr "fast");
   ("confidence"%string, JNum 1)].

(** * Properties *)

(** ** Bounded deques *)

Module DequeFacts.

Lemma append_length {A : Type} (maxlen : nat) (d : list A) (x : A) :
  length (Deque.append maxlen d x) = Nat.min (S (length d)) maxlen.
Proof.
  unfold Deque.append. rewrite length_skipn, length_app. cbn [length]. lia.
Qed.

Lemma append_room {A : Type} (maxlen : nat) (d : list A) (x : A) :
  (length d < maxlen)%nat -> Deque.append maxlen d x = d ++ [x].
Proof.
  intros Hlt. unfold Deque.append. rewrite length_app. simpl.
  replace (length d + 1 - maxlen)%nat with 0%nat by lia. reflexivity.
Qed.

Lemma append_In {A : Type} (maxlen : nat) (d : list A) (x y : A) :
  In y (Deque.append maxlen d x) -> In y d \/ y = x.
Proof.
  unfold Deque.append. intros Hin.
  assert (Hall : In y (d ++ [x])).
  { rewrite <- (firstn_skipn (length (d ++ [x]) - maxlen) (d ++ [x])).
    apply in_or_app. right. exact Hin. }
  apply in_app_or in Hall. rename Hall into Hin'. clear Hin. rename Hin' into Hin. destruct Hin as [Hin | [Heq | []]]; auto.
Qed.

End DequeFacts.

(** ** The scorers over the reals

    Bounds of the two scorers as functions on [R].  They are facts of the
    formulas, used below to decide comparisons with the threshold; on doubles
    the statistical scorer can return nan. *)

Lemma fold_left_Rmax_ge (l : list R) (x : R) : x <= fold_left Rmax l x.
Proof.
  revert x. induction l as [| y l IH]; intros x; simpl.
  - lra.
  - apply Rle_trans with (Rmax x y); [apply Rmax_l | apply IH].
Qed.

Lemma np_max_abs_nonneg (q : list R) (m : R) :
  Np.max (map Rabs q) = Some m -> 0 <= m.
Proof.
  destruct q as [| a q]; simpl; [discriminate |].
  intros Heq. injection Heq as <-.
  apply Rle_trans with (Rabs a); [apply Rabs_pos | apply fold_left_Rmax_ge].
Qed.

Lemma z_scores_abs (hist : list (list R)) (x zs : list R) :
  z_scores hist x = Some zs -> exists q, zs = map Rabs q.
Proof.
  unfold z_scores.
  destruct (Np.shape hist) as [m |]; [| discriminate].
  destruct (Np.broadcast Rminus x _) as [diff |]; [| discriminate].
  destruct (Np.broadcast Rdiv diff _) as [q |]; [| discriminate].
  intros Heq. injection Heq as <-. now exists q.
Qed.

Lemma saturate_bounds (m : R) : 0 <= m -> 0 <= Rmin (m / 3) 1 <= 1.
Proof.
  intros Hm. split.
  - apply Rmin_glb; lra.
  - apply Rmin_r.
Qed.

Lemma statistical_anomaly_score_bounds (buf : list (list R)) (x : list R) :
  0 <= statistical_anomaly_score buf x <= 1.
Proof.
  unfold statistical_anomaly_score.
  destruct (length buf <? 5)%nat; [lra |].
  cbv zeta.
  destruct (length (removelast buf) =? 0)%nat; [lra |].
  destruct (z_scores (removelast buf) x) as [zs |] eqn:Hz; [| lra].
  destruct (Np.max zs) as [m |] eqn:Hm; [| lra].
  apply z_scores_abs in Hz. destruct Hz as [q ->].
  apply saturate_bounds. eapply np_max_abs_nonneg; eassumption.
Qed.

Lemma logistic_bounds (t : R) : 0 < 1 / (1 + exp t) < 1.
Proof.
  pose proof (exp_pos t) as Hpos.
  split.
  - apply Rdiv_lt_0_compat; lra.
  - apply (Rmult_lt_reg_r (1 + exp t)); [lra |].
    unfold Rdiv. rewrite Rmult_assoc, Rinv_l by lra. lra.
Qed.

(** The clip of [_normalize_score] never cuts: over the reals the logistic
    value is already strictly between 0 and 1. *)
Lemma normalize_score_logistic (d : R) :
  normalize_score d = 1 / (1 + exp (- 10 * (- d))).
Proof.
  unfold normalize_score, Np.clip. cbv zeta.
  pose proof (logistic_bounds (- 10 * (- d))) as [Hlo Hhi].
  rewrite Rmax_left by lra. rewrite Rmin_left by lra. reflexivity.
Qed.

(** ** The statistical scorer computes the maximal z-score *)












(** C1, against the code.  [predict] computes on doubles, and there the
    score leaves [0, 1].  Take a fresh detector and the one-feature sample
    1e308, a finite double, five times.  The first four calls return 0.0
    (fewer than five samples in the buffer).  On the fifth the sum of the
    four historical samples overflows to infinity, so mean and standard
    deviation are infinite, the z-score is infinity over infinity, and the
    score the scorer returns, which [predict] returns and appends to the
    score history, is nan: neither [0 <= score] nor [score <= 1] holds. *)
Theorem statistical_score_overflows_to_nan :
  let score := statistical_anomaly_score_float (repeat huge_sample 5) huge_sample in
  let calls :=
    FloatDetector.predict_all (repeat huge_sample 5) (FloatDetector.init 50) in
  statistical_anomaly_score_float (repeat huge_sample 4) huge_sample = 0%float /\
  PrimFloat.is_nan score = true /\
  PrimFloat.leb 0%float score = false /\
  PrimFloat.leb score 1%float = false /\
  option_map fst calls = Some [0; 0; 0; 0; score]%float /\
  option_map (fun r => FloatDetector.anomaly_history (snd r)) calls =
    Some [0; 0; 0; 0; score]%float.
Proof. cbv zeta. repeat apply conj; vm_compute; reflexivity. Qed.

(** ** The detector *)

Section DetectorFacts.

Context {E : Estimators}.

(** *** The two ways through [predict] *)

Lemma accepted_inv (s : AnomalyDetector) (x : list R) :
  accepted s x ->
  (length x =? 0)%nat = false /\
  dimension_mismatch x (store_feature_count x (count_prediction s)) = false.
Proof.
  intros [Hne Hdim]. split.
  - destruct x; [congruence | reflexivity].
  - unfold dimension_mismatch, store_feature_count. simpl.
    destruct (feature_count s) as [n |] eqn:Hfc; simpl.
    + rewrite Hfc. rewrite (Hdim n eq_refl), Nat.eqb_refl. reflexivity.
    + rewrite Nat.eqb_refl. reflexivity.
Qed.

Lemma predict_accepted (s : AnomalyDetector) (x : list R) :
  accepted s x ->
  predict s x =
  score_buffered x
    (buffer_sample x (store_feature_count x (count_prediction s))).
Proof.
  intros Hacc. apply accepted_inv in Hacc. destruct Hacc as [H0 Hdim].
  unfold predict. cbv zeta. rewrite H0, Hdim. reflexivity.
Qed.

Lemma predict_rejected (s : AnomalyDetector) (x : list R) :
  ~ accepted s x -> predict s x = (0, count_prediction s).
Proof.
  intros Hrej. unfold predict. cbv zeta.
  destruct (length x =? 0)%nat eqn:H0; [reflexivity |].
  unfold store_feature_count, dimension_mismatch.
  destruct (feature_count (count_prediction s)) as [n |] eqn:Hfc.
  - rewrite Hfc. destruct (length x =? n)%nat eqn:Hn; [| reflexivity].
    exfalso. apply Hrej. split.
    + intros ->. discriminate.
    + intros n' Hn'. simpl in Hfc. rewrite Hfc in Hn'.
      injection Hn' as <-. now apply Nat.eqb_eq.
  - exfalso. apply Hrej. split.
    + intros ->. discriminate.
    + intros n' Hn'. simpl in Hfc. congruence.
Qed.

(** The rejected calls are the two the source names: the empty vector and
    the vector whose length is not the recorded dimension. *)
Lemma not_accepted_iff (s : AnomalyDetector) (x : list R) :
  ~ accepted s x <->
  x = [] \/ exists n, feature_count s = Some n /\ length x <> n.
Proof.
  split.
  - intros Hrej. destruct x as [| v x]; [now left |]. right.
    destruct (feature_count s) as [n |] eqn:Hfc.
    + exists n. split; [reflexivity |]. intros Hlen. apply Hrej.
      split; [discriminate |]. intros n' Hn'. congruence.
    + exfalso. apply Hrej. split; [discriminate |]. intros n' Hn'. congruence.
  - intros [-> | (n & Hfc & Hlen)] [Hne Hdim].
    + now apply Hne.
    + apply Hlen. now apply Hdim.
Qed.

Lemma update_model_data_buffer (s : AnomalyDetector) :
  data_buffer (update_model s) = data_buffer s.
Proof.
  unfold update_model.
  destruct (length (data_buffer s) <? 20)%nat; [reflexivity |].
  destruct (fit_round s); reflexivity.
Qed.

Lemma auto_train_data_buffer (s : AnomalyDetector) :
  data_buffer (auto_train s) = data_buffer s.
Proof.
  unfold auto_train.
  destruct (_ && _); [apply update_model_data_buffer | reflexivity].
Qed.

Lemma score_buffered_data_buffer (s : AnomalyDetector) (x : list R) :
  data_buffer (snd (score_buffered x s)) = data_buffer s.
Proof.
  unfold score_buffered.
  destruct (length (data_buffer s) <? 20)%nat; cbv zeta; [reflexivity |].
  destruct (is_trained (auto_train s)).
  - destruct (trained_score (auto_train s) x); simpl;
      apply auto_train_data_buffer.
  - simpl. apply auto_train_data_buffer.
Qed.

(** C4.  When the buffer, with the accepted query appended, holds fewer
    than 20 samples, [predict] returns what the statistical scorer computes
    on that buffer and that query; and [update_model] on a detector with
    fewer than 20 buffered samples changes nothing at all. *)
Theorem cold_start_is_statistical (s : AnomalyDetector) (features : list R) :
  (accepted s features ->
   let buffer := Deque.append (buffer_size s) (data_buffer s) features in
   (length buffer < 20)%nat ->
   data_buffer (snd (predict s features)) = buffer /\
   fst (predict s features) = statistical_anomaly_score buffer features) /\
  ((length (data_buffer s) < 20)%nat -> update_model s = s).
Proof.
  split.
  - intros Hacc buffer Hlt.
    rewrite (predict_accepted _ _ Hacc).
    rewrite score_buffered_data_buffer.
    unfold score_buffered.
    assert (Hbuf : data_buffer
              (buffer_sample features
                 (store_feature_count features (count_prediction s))) = buffer).
    { unfold buffer_sample, store_feature_count.
      destruct (feature_count (count_prediction s)); reflexivity. }
    rewrite Hbuf.
    apply Nat.ltb_lt in Hlt. rewrite Hlt. simpl. auto.
  - intros Hlt. unfold update_model.
    apply Nat.ltb_lt in Hlt. rewrite Hlt. reflexivity.
Qed.

(** C5.  Once a feature dimension [n] is recorded, [predict] on a vector
    of any other length returns 0.0 and leaves the sample buffer and the
    trained flag as they were. *)
Theorem dimension_lock_in (s : AnomalyDetector) (features : list R) (n : nat) :
  feature_count s = Some n ->
  length features <> n ->
  fst (predict s features) = 0 /\
  data_buffer (snd (predict s features)) = data_buffer s /\
  is_trained (snd (predict s features)) = is_trained s.
Proof.
  intros Hfc Hlen.
  rewrite predict_rejected.
  - simpl. auto.
  - intros [_ Hdim]. apply Hlen. now apply Hdim.
Qed.

(** C9.  Every call of [predict] adds exactly one to the prediction
    counter, the calls it rejects (empty vector, wrong dimension) included;
    a rejected call leaves buffer, trained flag, anomaly counter and score
    history alone, so the anomaly rate of [get_statistics] afterwards is the
    old anomaly count over a prediction count that includes the rejected
    call. *)
Theorem rejected_calls_are_counted (s : AnomalyDetector) (features : list R) :
  prediction_count (snd (predict s features)) = S (prediction_count s) /\
  (~ accepted s features ->
   let s' := snd (predict s features) in
   data_buffer s' = data_buffer s /\
   is_trained s' = is_trained s /\
   anomaly_count s' = anomaly_count s /\
   anomaly_history s' = anomaly_history s /\
   stat_anomaly_rate (get_statistics s') =
     INR (anomaly_count s) / INR (S (prediction_count s))).
Proof.
  split.
  - unfold predict. cbv zeta.
    destruct (length features =? 0)%nat; [reflexivity |].
    destruct (dimension_mismatch features _).
    + unfold store_feature_count.
      destruct (feature_count (count_prediction s)); reflexivity.
    + unfold score_buffered.
      assert (Hup : forall t, prediction_count (update_model t) = prediction_count t).
      { intros t. unfold update_model.
        destruct (length (data_buffer t) <? 20)%nat; [reflexivity |].
        destruct (fit_round t); reflexivity. }
      assert (Hau : forall t, prediction_count (auto_train t) = prediction_count t).
      { intros t. unfold auto_train. destruct (_ && _); [apply Hup | reflexivity]. }
      assert (Hst : prediction_count
                (buffer_sample features
                   (store_feature_count features (count_prediction s)))
              = S (prediction_count s)).
      { unfold store_feature_count.
        destruct (feature_count (count_prediction s)); reflexivity. }
      destruct (length (data_buffer _) <? 20)%nat; cbv zeta; [exact Hst |].
      destruct (is_trained (auto_train _)).
      * destruct (trained_score _ features); simpl; rewrite Hau; exact Hst.
      * simpl. rewrite Hau. exact Hst.
  - intros Hrej s'. subst s'. rewrite (predict_rejected _ _ Hrej). simpl.
    repeat split; reflexivity.
Qed.

(** *** [predict] on an accepted vector, branch by branch *)

Lemma update_model_history (s : AnomalyDetector) :
  anomaly_history (update_model s) = anomaly_history s /\
  anomaly_count (update_model s) = anomaly_count s.
Proof.
  unfold update_model.
  destruct (length (data_buffer s) <? 20)%nat; [auto |].
  destruct (fit_round s); auto.
Qed.

Lemma scoring_state_history (s : AnomalyDetector) (x : list R) :
  anomaly_history (scoring_state s x) = anomaly_history s /\
  anomaly_count (scoring_state s x) = anomaly_count s.
Proof.
  unfold scoring_state. cbv zeta.
  set (s0 := buffer_sample x (store_feature_count x (count_prediction s))).
  assert (H0 : anomaly_history s0 = anomaly_history s /\
               anomaly_count s0 = anomaly_count s).
  { unfold s0, buffer_sample, store_feature_count.
    destruct (feature_count (count_prediction s)); auto. }
  destruct (length (data_buffer s0) <? 20)%nat; [exact H0 |].
  unfold auto_train. destruct (_ && _); [| exact H0].
  destruct (update_model_history s0) as [-> ->]. exact H0.
Qed.

Lemma predict_statistical (s : AnomalyDetector) (x : list R) :
  accepted s x ->
  let s1 := scoring_state s x in
  trained_path s x = false ->
  let a := statistical_anomaly_score (data_buffer s1) x in
  predict s x = (a, record_score a s1).
Proof.
  intros Hacc s1 Hpath a. subst a s1.
  rewrite (predict_accepted _ _ Hacc).
  unfold trained_path, scoring_state, score_buffered in *. cbv zeta in *.
  set (s0 := buffer_sample x (store_feature_count x (count_prediction s))) in *.
  destruct (length (data_buffer s0) <? 20)%nat eqn:Hlen; [reflexivity |].
  rewrite auto_train_data_buffer in Hpath.
  apply Nat.ltb_ge in Hlen. apply Nat.leb_le in Hlen. rewrite Hlen in Hpath.
  simpl in Hpath. rewrite Hpath. reflexivity.
Qed.

Lemma trained_path_inv (s : AnomalyDetector) (x : list R) :
  trained_path s x = true ->
  let s0 := buffer_sample x (store_feature_count x (count_prediction s)) in
  (length (data_buffer s0) <? 20)%nat = false /\
  scoring_state s x = auto_train s0 /\
  is_trained (auto_train s0) = true.
Proof.
  unfold trained_path, scoring_state. cbv zeta.
  set (s0 := buffer_sample x (store_feature_count x (count_prediction s))).
  destruct (length (data_buffer s0) <? 20)%nat eqn:Hlen.
  - apply Nat.ltb_lt in Hlen. intros Hpath.
    apply andb_prop in Hpath. destruct Hpath as [Hge _].
    apply Nat.leb_le in Hge. lia.
  - intros Hpath. apply andb_prop in Hpath. tauto.
Qed.

Lemma predict_trained (s : AnomalyDetector) (x : list R) (v : R) :
  accepted s x ->
  let s1 := scoring_state s x in
  trained_path s x = true ->
  trained_score s1 x = Some v ->
  predict s x =
  (v, set_anomaly_count
        (if Rgt_dec v (threshold s1)
         then S (anomaly_count s1) else anomaly_count s1)
        (record_score v s1)).
Proof.
  intros Hacc s1 Hpath Hv. subst s1.
  rewrite (predict_accepted _ _ Hacc).
  destruct (trained_path_inv _ _ Hpath) as (Hlen & Hs1 & Htr).
  rewrite Hs1 in *. unfold score_buffered. rewrite Hlen. cbv zeta.
  rewrite Htr, Hv. reflexivity.
Qed.

Lemma predict_trained_failure (s : AnomalyDetector) (x : list R) :
  accepted s x ->
  let s1 := scoring_state s x in
  trained_path s x = true ->
  trained_score s1 x = None ->
  predict s x = (statistical_anomaly_score (data_buffer s1) x, s1).
Proof.
  intros Hacc s1 Hpath Hv. subst s1.
  rewrite (predict_accepted _ _ Hacc).
  destruct (trained_path_inv _ _ Hpath) as (Hlen & Hs1 & Htr).
  rewrite Hs1 in *. unfold score_buffered. rewrite Hlen. cbv zeta.
  rewrite Htr, Hv. reflexivity.
Qed.

(** C7.  On an accepted vector that takes the trained branch, when the
    scaler, the forest's label and its decision function all return, the
    score [predict] returns is [0.7 * normalized + 0.3 * statistical] with
    [normalized = 1 / (1 + exp (-10 * (-d)))], [d] the forest's decision
    value on the scaled query, and [statistical] the statistical scorer's
    result on the same query. *)
Theorem trained_prediction_blend
  (s : AnomalyDetector) (features : list R)
  (features_scaled : list (list R)) (label : Z) (labels : list Z)
  (d : R) (ds : list R) :
  accepted s features ->
  let s1 := scoring_state s features in
  trained_path s features = true ->
  scaler_transform (scaler s1) [features] = Some features_scaled ->
  forest_predict (model s1) features_scaled = Some (label :: labels) ->
  forest_decision (model s1) features_scaled = Some (d :: ds) ->
  fst (predict s features) =
    0.7 * (1 / (1 + exp (- 10 * (- d))))
    + 0.3 * statistical_anomaly_score (data_buffer s1) features.
Proof.
  intros Hacc s1 Hpath Hsc Hlab Hdec.
  assert (Hv : trained_score s1 features =
               Some (0.7 * normalize_score d
                     + 0.3 * statistical_anomaly_score (data_buffer s1) features)).
  { unfold trained_score. rewrite Hsc, Hlab, Hdec. reflexivity. }
  rewrite (predict_trained _ _ _ Hacc Hpath Hv). simpl.
  rewrite normalize_score_logistic. reflexivity.
Qed.

(** C10.  On an accepted vector: when the trained branch raises, [predict]
    returns the statistical score and neither appends it to the score
    history nor touches the anomaly counter, however large the score; on
    every other way through, the returned score is appended to the bounded
    history. *)
Theorem failed_trained_path_is_not_recorded
  (s : AnomalyDetector) (features : list R) :
  accepted s features ->
  let s1 := scoring_state s features in
  let failing := trained_path s features = true /\
                 trained_score s1 features = None in
  (failing ->
   fst (predict s features) =
     statistical_anomaly_score (data_buffer s1) features /\
   anomaly_history (snd (predict s features)) = anomaly_history s /\
   anomaly_count (snd (predict s features)) = anomaly_count s) /\
  (~ failing ->
   anomaly_history (snd (predict s features)) =
     Deque.append 100 (anomaly_history s) (fst (predict s features))).
Proof.
  intros Hacc s1 failing. subst failing.
  destruct (scoring_state_history s features) as [Hh Hc]. fold s1 in Hh, Hc.
  split.
  - intros [Hpath Hnone].
    rewrite (predict_trained_failure _ _ Hacc Hpath Hnone). simpl. auto.
  - intros Hok.
    destruct (trained_path s features) eqn:Hpath.
    + destruct (trained_score s1 features) as [v |] eqn:Hv.
      * rewrite (predict_trained _ _ _ Hacc Hpath Hv). simpl.
        fold s1. now rewrite Hh.
      * exfalso. apply Hok. auto.
    + rewrite (predict_statistical _ _ Hacc Hpath). simpl. fold s1. now rewrite Hh.
Qed.

(** *** Training *)

(** C2, at the input where the code departs from it.  A detector that has
    seen a one-dimensional sample and is then [reset] still holds the
    dimension 1: it rejects a two-dimensional sample with score 0.0 and an
    empty buffer, where a freshly constructed detector takes the sample
    into its buffer. *)
Theorem reset_keeps_feature_dimension :
  let fresh := init 50 0.7 in
  let s := reset (snd (predict fresh [1])) in
  feature_count s = Some 1%nat /\
  feature_count fresh = None /\
  predict s [1; 2] = (0, count_prediction s) /\
  data_buffer (snd (predict s [1; 2])) = [] /\
  data_buffer (snd (predict fresh [1; 2])) = [[1; 2]].
Proof.
  cbv zeta. repeat apply conj; lazy; reflexivity.
Qed.

(** *** The buffer holds samples of one dimension *)

Lemma update_model_feature_count (s : AnomalyDetector) :
  feature_count (update_model s) = feature_count s.
Proof.
  unfold update_model.
  destruct (length (data_buffer s) <? 20)%nat; [reflexivity |].
  destruct (fit_round s); reflexivity.
Qed.

Lemma score_buffered_feature_count (s : AnomalyDetector) (x : list R) :
  feature_count (snd (score_buffered x s)) = feature_count s.
Proof.
  assert (Ha : feature_count (auto_train s) = feature_count s).
  { unfold auto_train.
    destruct (_ && _); [apply update_model_feature_count | reflexivity]. }
  unfold score_buffered.
  destruct (length (data_buffer s) <? 20)%nat; cbv zeta; [reflexivity |].
  destruct (is_trained (auto_train s)); [| exact Ha].
  destruct (trained_score (auto_train s) x); exact Ha.
Qed.

Lemma well_shaped_buffer_sample (s : AnomalyDetector) (x : list R) (n : nat) :
  feature_count s = Some n ->
  length x = n ->
  Forall (fun r => length r = n) (data_buffer s) ->
  Forall (fun r => length r = n) (data_buffer (buffer_sample x s)).
Proof.
  intros Hfc Hx Hall. apply Forall_forall. intros r Hin.
  apply DequeFacts.append_In in Hin. destruct Hin as [Hin | ->].
  - rewrite Forall_forall in Hall. now apply Hall.
  - exact Hx.
Qed.

Lemma well_shaped_predict (s : AnomalyDetector) (x : list R) :
  well_shaped s -> well_shaped (snd (predict s x)).
Proof.
  unfold well_shaped, predict. cbv zeta. intros Hs.
  destruct (length x =? 0)%nat; [exact Hs |].
  unfold store_feature_count, dimension_mismatch.
  change (feature_count (count_prediction s)) with (feature_count s).
  destruct (feature_count s) as [n |] eqn:Hfc.
  - change (feature_count (count_prediction s)) with (feature_count s).
    rewrite Hfc.
    destruct (length x =? n)%nat eqn:Hn; simpl negb; cbv iota.
    + rewrite score_buffered_feature_count, score_buffered_data_buffer.
      change (feature_count (buffer_sample x (count_prediction s)))
        with (feature_count s).
      rewrite Hfc. apply Nat.eqb_eq in Hn.
      now apply well_shaped_buffer_sample.
    + simpl. now rewrite Hfc.
  - simpl feature_count. rewrite !Nat.eqb_refl. simpl negb. cbv iota.
    rewrite score_buffered_feature_count, score_buffered_data_buffer.
    simpl feature_count.
    apply well_shaped_buffer_sample; [reflexivity | reflexivity |].
    simpl. rewrite Hs. constructor.
Qed.

Lemma reachable_well_shaped (s : AnomalyDetector) :
  reachable s -> well_shaped s.
Proof.
  induction 1 as [b t | s x _ IH | s _ IH | s _ IH].
  - reflexivity.
  - now apply well_shaped_predict.
  - unfold well_shaped in *.
    now rewrite update_model_feature_count, update_model_data_buffer.
  - unfold well_shaped. simpl.
    destruct (feature_count s); [constructor | reflexivity].
Qed.

(** Every call [predict] makes to the statistical scorer is on a buffer
    whose samples have the query's dimension. *)
Lemma scoring_state_well_shaped (s : AnomalyDetector) (x : list R) :
  reachable s ->
  accepted s x ->
  Forall (fun r => length r = length x) (data_buffer (scoring_state s x)).
Proof.
  intros Hreach Hacc.
  pose proof (well_shaped_predict s x (reachable_well_shaped s Hreach)) as Hws.
  rewrite (predict_accepted _ _ Hacc) in Hws. unfold well_shaped in Hws.
  rewrite score_buffered_feature_count, score_buffered_data_buffer in Hws.
  assert (Hbuf : data_buffer (scoring_state s x) =
                 data_buffer (buffer_sample x
                   (store_feature_count x (count_prediction s)))).
  { unfold scoring_state. cbv zeta.
    destruct (_ <? 20)%nat; [reflexivity | apply auto_train_data_buffer]. }
  rewrite Hbuf.
  destruct Hacc as [_ Hdim].
  unfold store_feature_count in *.
  change (feature_count (count_prediction s)) with (feature_count s) in *.
  destruct (feature_count s) as [n |] eqn:Hfc.
  - change (feature_count (buffer_sample x (count_prediction s)))
      with (feature_count s) in Hws.
    rewrite Hfc in Hws. now rewrite (Hdim n eq_refl).
  - exact Hws.
Qed.

(** *** What [reset] does bring back *)

Lemma cold_equiv_predict (n : nat) (a b : AnomalyDetector) (x : list R) :
  cold_equiv n a b ->
  length x = n ->
  (length (data_buffer a) < 19)%nat ->
  fst (predict a x) = fst (predict b x) /\
  cold_equiv n (snd (predict a x)) (snd (predict b x)) /\
  (length (data_buffer (snd (predict a x))) <= S (length (data_buffer a)))%nat.
Proof.
  intros (Hbs & Hth & Hbuf & Hta & Htb & Hpc & Hac & Hah & Hfa & Hfb) Hx Hlen.
  destruct x as [| v x].
  - simpl. split; [reflexivity |]. split; [| lia].
    repeat split; simpl; auto.
  - assert (Hne : v :: x <> []) by discriminate.
    assert (Hacca : accepted a (v :: x)).
    { split; [exact Hne |]. intros n' Hn'. congruence. }
    assert (Haccb : accepted b (v :: x)).
    { split; [exact Hne |]. intros n' Hn'. destruct Hfb; congruence. }
    rewrite (predict_accepted _ _ Hacca), (predict_accepted _ _ Haccb).
    unfold score_buffered.
    set (a0 := buffer_sample (v :: x)
                 (store_feature_count (v :: x) (count_prediction a))).
    set (b0 := buffer_sample (v :: x)
                 (store_feature_count (v :: x) (count_prediction b))).
    assert (Ha0 : a0 = buffer_sample (v :: x) (count_prediction a)).
    { unfold a0, store_feature_count.
      change (feature_count (count_prediction a)) with (feature_count a).
      now rewrite Hfa. }
    assert (Hbuf0 : data_buffer a0 = data_buffer b0).
    { rewrite Ha0. unfold b0, store_feature_count, buffer_sample.
      destruct (feature_count (count_prediction b)); simpl;
        now rewrite Hbs, Hbuf. }
    assert (Hlen0 : (length (data_buffer a0) <= S (length (data_buffer a)))%nat).
    { rewrite Ha0. simpl. rewrite DequeFacts.append_length. lia. }
    assert (Hcold : (length (data_buffer a0) <? 20)%nat = true)
      by (apply Nat.ltb_lt; lia).
    rewrite <- Hbuf0, Hcold. simpl fst. simpl snd.
    split; [reflexivity |]. split; [| exact Hlen0].
    unfold b0, store_feature_count.
    change (feature_count (count_prediction b)) with (feature_count b).
    rewrite Ha0.
    destruct Hfb as [Hfb | Hfb]; rewrite Hfb; simpl;
      repeat split; simpl; auto; try (now rewrite Hpc); try (now rewrite Hah);
        try (now rewrite Hbs, Hbuf); try (left; congruence).
Qed.

Lemma cold_equiv_predict_all (n : nat) (xs : list (list R))
  (a b : AnomalyDetector) :
  cold_equiv n a b ->
  Forall (fun x => length x = n) xs ->
  (length (data_buffer a) + length xs < 20)%nat ->
  fst (predict_all xs a) = fst (predict_all xs b) /\
  cold_equiv n (snd (predict_all xs a)) (snd (predict_all xs b)).
Proof.
  revert a b. induction xs as [| x xs IH]; intros a b Heq Hall Hlen.
  - simpl. auto.
  - inversion Hall as [| x' xs' Hx Hxs]; subst. simpl in Hlen.
    destruct (cold_equiv_predict _ a b x Heq eq_refl) as (Hs & Heq' & Hl);
      [lia |].
    destruct (IH _ _ Heq' Hxs) as [Hss Heq'']; [lia |].
    simpl. rewrite Hs, Hss. auto.
Qed.

(** X28.  After [reset], up to 19 samples of the dimension the detector holds are
    scored as a freshly constructed detector scores them, with the same
    buffer, counters and history afterwards.  It holds for samples of the
    recorded dimension only: [reset] leaves [feature_count] as it is. *)
Lemma reset_cold_start (s : AnomalyDetector) (n : nat) (xs : list (list R)) :
  feature_count s = Some n ->
  Forall (fun x => length x = n) xs ->
  (length xs < 20)%nat ->
  let fresh := init (buffer_size s) (threshold s) in
  fst (predict_all xs (reset s)) = fst (predict_all xs fresh) /\
  cold_equiv n (snd (predict_all xs (reset s))) (snd (predict_all xs fresh)).
Proof.
  intros Hfc Hall Hlen fresh.
  apply cold_equiv_predict_all; [| exact Hall | simpl; lia].
  repeat split; simpl; auto.
Qed.

End DetectorFacts.

(** ** The stream session *)

Section SessionFacts.

Variable H : Type.
Variable json_loads : string -> option json.
Variable on_data_callback : json -> H -> H * option exn.

Abbreviation handle := (handle_message json_loads on_data_callback).
Abbreviation receive := (receive_frames json_loads on_data_callback).

Lemma is_connection_spec (msg_type : option json) :
  is_connection msg_type = true <-> msg_type = Some (JStr "connection").
Proof.
  destruct msg_type as [[| b | r | s | l | m] |]; simpl;
    try (split; [discriminate | intros Heq; discriminate Heq]).
  rewrite String.eqb_eq. split; [now intros -> | now intros [= ->]].
Qed.

Lemma dict_mem_spec (key : string) (m : list (string * json)) :
  dict_mem key m = true <-> exists v, dict_get key m = Some v.
Proof.
  unfold dict_mem. destruct (dict_get key m) as [v |].
  - split; [now exists v | reflexivity].
  - split; [discriminate | intros [v Hv]; discriminate Hv].
Qed.

Lemma log_progress_frame (c : Client H) :
  handler (log_progress c) = handler c /\
  forwarded (log_progress c) = forwarded c /\
  messages_received (log_progress c) = messages_received c.
Proof.
  unfold log_progress. destruct (_ =? 0)%nat; simpl; auto.
Qed.

(** Only a [BaseException] out of the data handler leaves
    [_handle_message]. *)
Lemma handle_message_returns (message : string) (c : Client H) :
  (forall data h, snd (on_data_callback data h) <> Some HandlerBaseException) ->
  snd (handle message c) = None /\
  messages_received (fst (handle message c)) = S (messages_received c).
Proof.
  intros Hcb. unfold handle_message, handle_body.
  destruct (json_loads message) as [[| b | r | s | l | m] |]; simpl; auto.
  destruct (is_connection (dict_get "type" m)).
  - simpl. split; [reflexivity |]. apply log_progress_frame.
  - destruct (dict_mem "timestamp" m && dict_mem "orientation" m).
    + unfold call_handler.
      pose proof (Hcb (JObj m) (handler (count_received c))) as Hne.
      destruct (on_data_callback (JObj m) (handler (count_received c)))
        as [h [e |]]; simpl in *.
      * destruct e; simpl; auto. congruence.
      * split; [reflexivity |].
        match goal with
        | |- context [log_progress ?c0] =>
            destruct (log_progress_frame c0) as (_ & _ & Hr)
        end.
        now rewrite Hr.
    + simpl. split; [reflexivity |]. apply log_progress_frame.
Qed.

(** X29.  When the data handler raises no [BaseException], every frame the
    channel delivers is read and counted, whatever the frames are. *)
Lemma receive_frames_all_read (frames : list string) (c : Client H) :
  (forall data h, snd (on_data_callback data h) <> Some HandlerBaseException) ->
  snd (receive frames c) = None /\
  messages_received (fst (receive frames c)) =
    (messages_received c + length frames)%nat.
Proof.
  intros Hcb. revert c.
  induction frames as [| message rest IH]; intros c; simpl.
  - split; [reflexivity | lia].
  - destruct (handle_message_returns message c Hcb) as [Hnone Hcount].
    destruct (handle message c) as [c' e]. simpl in Hnone, Hcount. subst e.
    destruct (IH c') as [Hn Hc]. split; [exact Hn |]. rewrite Hc, Hcount. lia.
Qed.

(** C8.  For every inbound frame: one that fails to decode is counted and
    skipped, no exception leaves [_handle_message] and the frames after it
    are read; a decoded object whose type is ["connection"] does not reach
    the data handler; a decoded object that is no connection message and
    carries both a timestamp and an orientation field is passed to the
    data handler, once; any other decoded frame does not reach it. *)
Theorem message_dispatch (message : string) (c : Client H) :
  let c' := fst (handle message c) in
  (json_loads message = None ->
   snd (handle message c) = None /\
   (forall rest, receive (message :: rest) c = receive rest c') /\
   messages_received c' = S (messages_received c) /\
   forwarded c' = forwarded c /\ handler c' = handler c) /\
  (forall m, json_loads message = Some (JObj m) ->
   dict_get "type" m = Some (JStr "connection") ->
   forwarded c' = forwarded c /\ handler c' = handler c) /\
  (forall m, json_loads message = Some (JObj m) ->
   dict_get "type" m <> Some (JStr "connection") ->
   (exists t, dict_get "timestamp" m = Some t) ->
   (exists o, dict_get "orientation" m = Some o) ->
   forwarded c' = forwarded c ++ [JObj m] /\
   handler c' = fst (on_data_callback (JObj m) (handler c))) /\
  (forall data, json_loads message = Some data ->
   unrecognized data ->
   snd (handle message c) = None /\
   forwarded c' = forwarded c /\ handler c' = handler c).
Proof.
  cbv zeta. repeat apply conj.
  - intros Hdec.
    assert (Hm : handle message c =
                 (write_log (LogDecodeError message) (count_received c), None)).
    { unfold handle_message, handle_body.
      rewrite Hdec. reflexivity. }
    repeat apply conj.
    + now rewrite Hm.
    + intros rest. simpl. now rewrite Hm.
    + now rewrite Hm.
    + now rewrite Hm.
    + now rewrite Hm.
  - intros m Hdec Htype.
    apply is_connection_spec in Htype.
    unfold handle_message, handle_body.
    rewrite Hdec, Htype. simpl fst.
    destruct (log_progress_frame
                (write_log (LogConnectionStatus (dict_get "status" m))
                   (count_received c))) as (Hh & Hf & _).
    rewrite Hh, Hf. auto.
  - intros m Hdec Htype Hts Hor.
    assert (Hconn : is_connection (dict_get "type" m) = false).
    { destruct (is_connection _) eqn:Hc; [| reflexivity].
      apply is_connection_spec in Hc. contradiction. }
    apply dict_mem_spec in Hts, Hor.
    unfold handle_message, handle_body.
    rewrite Hdec, Hconn, Hts, Hor. simpl andb. cbv iota.
    unfold call_handler. simpl handler.
    destruct (on_data_callback (JObj m) (handler c)) as [h [e |]].
    + destruct e; simpl; auto.
    + simpl fst.
      match goal with
      | |- context [log_progress ?c0] =>
          destruct (log_progress_frame c0) as (Hh & Hf & _)
      end.
      rewrite Hh, Hf. auto.
  - intros data Hdec Hun.
    unfold handle_message, handle_body. rewrite Hdec.
    destruct data as [| b | r | s | l | m]; simpl; auto.
    destruct (Hun m eq_refl) as [Htype Hfields].
    assert (Hconn : is_connection (dict_get "type" m) = false).
    { destruct (is_connection _) eqn:Hc; [| reflexivity].
      apply is_connection_spec in Hc. contradiction. }
    assert (Hboth : dict_mem "timestamp" m && dict_mem "orientation" m = false).
    { destruct (dict_mem "timestamp" m) eqn:Hts;
        destruct (dict_mem "orientation" m) eqn:Hor; try reflexivity.
      exfalso. apply Hfields. split; now apply dict_mem_spec. }
    rewrite Hconn, Hboth. simpl.
    match goal with
    | |- context [log_progress ?c0] =>
        destruct (log_progress_frame c0) as (Hh & Hf & _)
    end.
    rewrite Hh, Hf. auto.
Qed.

End SessionFacts.

(** ** The properties at concrete inputs *)

Lemma reachable_feed {E : Estimators} (samples : list (list R))
  (s : AnomalyDetector) :
  reachable s -> reachable (feed samples s).
Proof.
  revert s. induction samples as [| x samples IH]; intros s Hs; [exact Hs |].
  simpl. apply IH. now apply reach_predict.
Qed.

Lemma trained_example_reachable (decides : bool) :
  reachable (trained_example decides).
Proof.
  unfold trained_example. apply reach_update, reachable_feed, reach_init.
Qed.

Lemma overfull_example_reachable : reachable overfull_example.
Proof.
  unfold overfull_example. apply reachable_feed, trained_example_reachable.
Qed.

Lemma trained_example_accepts (decides : bool) :
  accepted (trained_example decides) [0].
Proof.
  split; [discriminate |].
  intros n Hn. lazy in Hn. injection Hn as <-. reflexivity.
Qed.

(** C4 on a fresh detector and a first sample. *)
Lemma cold_start_is_statistical_witness :
  let s := @init (double 20 true) 50 0.7 in
  accepted s [1] /\
  fst (predict s [1]) = statistical_anomaly_score [[1]] [1] /\
  update_model s = s.
Proof.
  cbv zeta.
  assert (Hacc : accepted (@init (double 20 true) 50 0.7) [1]).
  { split; [discriminate | intros n Hn; discriminate Hn]. }
  destruct (cold_start_is_statistical (@init (double 20 true) 50 0.7) [1])
    as [Hcold Hgate].
  split; [exact Hacc |]. split.
  - apply (Hcold Hacc). simpl. lia.
  - apply Hgate. simpl. lia.
Defined.

(** C5 on a detector that has recorded dimension 1 and is given two
    features. *)
Lemma dimension_lock_in_witness :
  let s := snd (predict (@init (double 20 true) 50 0.7) [1]) in
  fst (predict s [1; 2]) = 0 /\
  data_buffer (snd (predict s [1; 2])) = data_buffer s /\
  is_trained (snd (predict s [1; 2])) = is_trained s.
Proof.
  cbv zeta.
  apply (dimension_lock_in
           (snd (predict (@init (double 20 true) 50 0.7) [1])) [1; 2] 1).
  - lazy. reflexivity.
  - simpl. lia.
Defined.

(** C9 on the same detector and an empty vector. *)
Lemma rejected_calls_are_counted_witness :
  let s := snd (predict (@init (double 20 true) 50 0.7) [1]) in
  ~ accepted s [] /\
  prediction_count (snd (predict s [])) = 2%nat /\
  anomaly_history (snd (predict s [])) = anomaly_history s /\
  stat_anomaly_rate (get_statistics (snd (predict s []))) = INR 0 / INR 2.
Proof.
  cbv zeta.
  assert (Hrej : ~ accepted (snd (predict (@init (double 20 true) 50 0.7) [1])) []).
  { intros [Hne _]. now apply Hne. }
  destruct (rejected_calls_are_counted
              (snd (predict (@init (double 20 true) 50 0.7) [1])) [])
    as [Hcount Hframe].
  destruct (Hframe Hrej) as (_ & _ & _ & Hhist & Hrate).
  split; [exact Hrej |]. split; [exact Hcount |]. split; [exact Hhist |].
  exact Hrate.
Defined.

(** C7 on the trained example: the double's forest decides 0 for the sample
    [0.0], so the score is [0.7 * 1/(1 + exp 0) + 0.3 * statistical]. *)
Lemma trained_prediction_blend_witness :
  let s := trained_example true in
  accepted s [0] /\
  trained_path s [0] = true /\
  fst (predict s [0]) =
    0.7 * (1 / (1 + exp (- 10 * (- 0))))
    + 0.3 * statistical_anomaly_score (data_buffer (scoring_state s [0])) [0].
Proof.
  cbv zeta.
  assert (Hpath : trained_path (trained_example true) [0] = true)
    by (lazy; reflexivity).
  split; [apply trained_example_accepts |]. split; [exact Hpath |].
  apply (trained_prediction_blend (trained_example true) [0] [[0]] 1%Z [] 0 []).
  - apply trained_example_accepts.
  - exact Hpath.
  - lazy. reflexivity.
  - lazy. reflexivity.
  - lazy. reflexivity.
Defined.

(** C10 on the trained example whose forest raises in [decision_function]:
    the score is the statistical one, and history and anomaly counter stay. *)
Lemma failed_trained_path_is_not_recorded_witness :
  let s := trained_example false in
  accepted s [0] /\
  trained_path s [0] = true /\
  trained_score (scoring_state s [0]) [0] = None /\
  fst (predict s [0]) =
    statistical_anomaly_score (data_buffer (scoring_state s [0])) [0] /\
  anomaly_history (snd (predict s [0])) = anomaly_history s /\
  anomaly_count (snd (predict s [0])) = anomaly_count s.
Proof.
  cbv zeta.
  assert (Hpath : trained_path (trained_example false) [0] = true)
    by (lazy; reflexivity).
  assert (Hnone : trained_score (scoring_state (trained_example false) [0]) [0]
                  = None)
    by (lazy; reflexivity).
  split; [apply trained_example_accepts |]. split; [exact Hpath |].
  split; [exact Hnone |].
  destruct (failed_trained_path_is_not_recorded (trained_example false) [0]
              (trained_example_accepts false)) as [Hfail _].
  apply Hfail. split; assumption.
Defined.

(** C3 as stated fails on the overfull example.  The detector is trained,
    with scaler and forest both of round 1.  [update_model] refits the
    scaler, then the forest's fit raises: afterwards the trained flag is
    false, not what it was, and the scaler is of round 2 beside a forest of
    round 1. *)
Lemma failed_refit_changes_flag_and_scaler :
  reachable overfull_example /\
  (20 <= length (data_buffer overfull_example))%nat /\
  fit_failed (fit_round overfull_example) = true /\
  is_trained overfull_example = true /\
  is_trained (update_model overfull_example) = false /\
  is_trained (update_model overfull_example) <> is_trained overfull_example /\
  scaler overfull_example = 1%nat /\
  model overfull_example = 1%nat /\
  scaler (update_model overfull_example) = 2%nat /\
  model (update_model overfull_example) = 1%nat.
Proof.
  split; [exact overfull_example_reachable |].
  split; [apply Nat.leb_le; lazy; reflexivity |].
  repeat apply conj; lazy; try reflexivity. discriminate.
Qed.


(** C8 on the stub collaborators: the sample frame reaches the handler, the
    greeting and the undecodable frame do not. *)
Lemma message_dispatch_witness :
  let c := client_init 0%nat in
  let handle := handle_message stub_loads stub_callback in
  handler (fst (handle "sample"%string c)) = 1%nat /\
  handler (fst (handle "greeting"%string c)) = 0%nat /\
  handler (fst (handle "not json"%string c)) = 0%nat /\
  snd (handle "not json"%string c) = None.
Proof.
  cbv zeta.
  destruct (message_dispatch nat stub_loads stub_callback "sample" (client_init 0%nat))
    as (_ & _ & Hdata & _).
  destruct (message_dispatch nat stub_loads stub_callback "greeting" (client_init 0%nat))
    as (_ & Hconn & _).
  destruct (message_dispatch nat stub_loads stub_callback "not json" (client_init 0%nat))
    as (Hbad & _).
  repeat apply conj.
  - eapply Hdata.
    + reflexivity.
    + simpl. discriminate.
    + eexists. reflexivity.
    + eexists. reflexivity.
  - eapply Hconn; reflexivity.
  - apply Hbad. reflexivity.
  - apply Hbad. reflexivity.
Defined.

(** * Further properties of the detector *)

Section DetectorInvariants.

Context {E : Estimators}.

(** ** What one call changes *)

Lemma accepted_dec (s : AnomalyDetector) (x : list R) :
  accepted s x \/ ~ accepted s x.
Proof.
  destruct x as [| v x].
  - right. intros [Hne _]. now apply Hne.
  - destruct (feature_count s) as [n |] eqn:Hfc.
    + destruct (Nat.eq_dec (length (v :: x)) n) as [Heq | Hneq].
      * left. split; [discriminate |]. intros n' Hn'. congruence.
      * right. intros [_ Hdim]. apply Hneq. now apply Hdim.
    + left. split; [discriminate |]. intros n' Hn'. congruence.
Qed.

Lemma update_model_config (s : AnomalyDetector) :
  buffer_size (update_model s) = buffer_size s /\
  threshold (update_model s) = threshold s /\
  prediction_count (update_model s) = prediction_count s.
Proof.
  unfold update_model.
  destruct (length (data_buffer s) <? 20)%nat; [auto |].
  destruct (fit_round s); auto.
Qed.

(** The detector with an accepted sample counted, its dimension stored and
    the sample in the buffer. *)
Lemma buffered_fields (s : AnomalyDetector) (x : list R) :
  let s0 := buffer_sample x (store_feature_count x (count_prediction s)) in
  data_buffer s0 = Deque.append (buffer_size s) (data_buffer s) x /\
  buffer_size s0 = buffer_size s /\
  threshold s0 = threshold s /\
  is_trained s0 = is_trained s /\
  scaler s0 = scaler s /\
  model s0 = model s /\
  prediction_count s0 = S (prediction_count s) /\
  anomaly_count s0 = anomaly_count s /\
  anomaly_history s0 = anomaly_history s.
Proof.
  unfold buffer_sample, store_feature_count. cbv zeta.
  destruct (feature_count (count_prediction s)); simpl; repeat split.
Qed.

Lemma scoring_state_fields (s : AnomalyDetector) (x : list R) :
  let s1 := scoring_state s x in
  data_buffer s1 = Deque.append (buffer_size s) (data_buffer s) x /\
  buffer_size s1 = buffer_size s /\
  threshold s1 = threshold s /\
  prediction_count s1 = S (prediction_count s).
Proof.
  cbv zeta. unfold scoring_state. cbv zeta.
  destruct (buffered_fields s x) as (Hb & Hbs & Hth & _ & _ & _ & Hpc & _).
  set (s0 := buffer_sample x (store_feature_count x (count_prediction s))) in *.
  destruct (length (data_buffer s0) <? 20)%nat; [auto |].
  unfold auto_train. destruct (_ && _); [| auto].
  destruct (update_model_config s0) as (-> & -> & ->).
  rewrite update_model_data_buffer. auto.
Qed.

(** The state [predict] leaves on an accepted vector is the scoring state,
    with at most a score recorded and the anomaly counter raised. *)
Lemma predict_accepted_shape (s : AnomalyDetector) (x : list R) :
  accepted s x ->
  let s1 := scoring_state s x in
  let s' := snd (predict s x) in
  data_buffer s' = data_buffer s1 /\
  buffer_size s' = buffer_size s1 /\
  threshold s' = threshold s1 /\
  prediction_count s' = prediction_count s1 /\
  is_trained s' = is_trained s1 /\
  scaler s' = scaler s1 /\
  model s' = model s1 /\
  (anomaly_history s' = anomaly_history s1 \/
   anomaly_history s' =
     Deque.append 100 (anomaly_history s1) (fst (predict s x))) /\
  (anomaly_count s' = anomaly_count s1 \/
   trained_path s x = true /\ anomaly_count s' = S (anomaly_count s1)).
Proof.
  intros Hacc s1 s'. subst s1 s'.
  destruct (trained_path s x) eqn:Hpath.
  - destruct (trained_score (scoring_state s x) x) as [v |] eqn:Hv.
    + rewrite (predict_trained _ _ _ Hacc Hpath Hv). simpl.
      repeat split; auto.
      destruct (Rgt_dec v (threshold (scoring_state s x))); auto.
    + rewrite (predict_trained_failure _ _ Hacc Hpath Hv). simpl.
      repeat split; auto.
  - rewrite (predict_statistical _ _ Hacc Hpath). simpl. repeat split; auto.
Qed.

(** The recorded dimension is written once, by the first vector that is not
    empty, and no call of [predict] changes it afterwards. *)
Lemma predict_feature_count (s : AnomalyDetector) (x : list R) :
  feature_count (snd (predict s x)) =
  match feature_count s with
  | Some n => Some n
  | None => if (length x =? 0)%nat then None else Some (length x)
  end.
Proof.
  unfold predict. cbv zeta.
  destruct (length x =? 0)%nat eqn:H0.
  - simpl. now destruct (feature_count s).
  - unfold store_feature_count, dimension_mismatch.
    change (feature_count (count_prediction s)) with (feature_count s).
    destruct (feature_count s) as [n |] eqn:Hfc.
    + change (feature_count (count_prediction s)) with (feature_count s).
      rewrite Hfc. destruct (negb (length x =? n)%nat).
      * simpl. exact Hfc.
      * rewrite score_buffered_feature_count. simpl. exact Hfc.
    + simpl feature_count. rewrite !Nat.eqb_refl. simpl negb. cbv iota.
      rewrite score_buffered_feature_count. reflexivity.
Qed.

Lemma apply_operation_config (s : AnomalyDetector) (o : operation) :
  buffer_size (apply_operation s o) = buffer_size s /\
  threshold (apply_operation s o) = threshold s.
Proof.
  destruct o as [x | |]; simpl.
  - destruct (accepted_dec s x) as [Hacc | Hrej].
    + destruct (predict_accepted_shape s x Hacc) as (_ & -> & -> & _).
      destruct (scoring_state_fields s x) as (_ & -> & -> & _). auto.
    + rewrite (predict_rejected _ _ Hrej). auto.
  - destruct (update_model_config s) as (-> & -> & _). auto.
  - auto.
Qed.

Lemma apply_operation_feature_count (s : AnomalyDetector) (o : operation)
  (n : nat) :
  feature_count s = Some n -> feature_count (apply_operation s o) = Some n.
Proof.
  intros Hfc. destruct o as [x | |]; simpl.
  - now rewrite predict_feature_count, Hfc.
  - now rewrite update_model_feature_count.
  - exact Hfc.
Qed.

(** X1.  Whatever sequence of [predict], [update_model] and [reset] calls a
    detector goes through, its buffer bound and threshold stay what the
    constructor was given, and a feature dimension, once recorded, is never
    changed or forgotten. *)
Theorem configuration_is_fixed (ops : list operation) (s : AnomalyDetector) :
  buffer_size (run ops s) = buffer_size s /\
  threshold (run ops s) = threshold s /\
  (forall n, feature_count s = Some n -> feature_count (run ops s) = Some n).
Proof.
  revert s. induction ops as [| o ops IH]; intros s; [simpl; auto |].
  simpl. destruct (IH (apply_operation s o)) as (Hbs & Hth & Hfc).
  destruct (apply_operation_config s o) as [Hbs' Hth'].
  repeat split; try congruence.
  intros n Hn. apply Hfc. now apply apply_operation_feature_count.
Qed.

(** ** Bounds every reachable detector keeps *)

Lemma predict_lengths (s : AnomalyDetector) (x : list R) :
  (length (data_buffer s) <= buffer_size s)%nat ->
  (length (anomaly_history s) <= 100)%nat ->
  (length (data_buffer (snd (predict s x))) <= buffer_size s)%nat /\
  (length (anomaly_history (snd (predict s x))) <= 100)%nat.
Proof.
  intros Hbuf Hhist.
  destruct (accepted_dec s x) as [Hacc | Hrej].
  - destruct (predict_accepted_shape s x Hacc)
      as (-> & _ & _ & _ & _ & _ & _ & Hh & _).
    destruct (scoring_state_fields s x) as (-> & _).
    destruct (scoring_state_history s x) as [Hh1 _]. rewrite Hh1 in Hh.
    split.
    + rewrite DequeFacts.append_length. lia.
    + destruct Hh as [-> | ->]; [exact Hhist |].
      rewrite DequeFacts.append_length. lia.
  - rewrite (predict_rejected _ _ Hrej). simpl. auto.
Qed.

Lemma reachable_lengths (s : AnomalyDetector) :
  reachable s ->
  (length (data_buffer s) <= buffer_size s)%nat /\
  (length (anomaly_history s) <= 100)%nat.
Proof.
  induction 1 as [b t | s x _ [IHb IHh] | s _ [IHb IHh] | s _ _].
  - simpl. lia.
  - destruct (predict_lengths s x IHb IHh) as [Hb Hh].
    destruct (apply_operation_config s (Predict x)) as [Hbs _].
    simpl in Hbs. rewrite Hbs. auto.
  - rewrite update_model_data_buffer.
    destruct (update_model_config s) as (-> & _).
    destruct (update_model_history s) as [-> _]. auto.
  - simpl. lia.
Qed.

(** X2.  In every reachable detector the sample buffer holds at most
    [buffer_size] samples and the score history at most 100 scores. *)
Theorem buffers_are_bounded (s : AnomalyDetector) :
  reachable s ->
  (length (data_buffer s) <= buffer_size s)%nat /\
  (length (anomaly_history s) <= 100)%nat.
Proof.
  exact (reachable_lengths s).
Qed.

Lemma reachable_dimension_positive (s : AnomalyDetector) (n : nat) :
  reachable s -> feature_count s = Some n -> (0 < n)%nat.
Proof.
  intros Hreach. revert n.
  induction Hreach as [b t | s x _ IH | s _ IH | s _ IH]; intros n Hn.
  - discriminate Hn.
  - rewrite predict_feature_count in Hn.
    destruct (feature_count s) as [m |]; [now apply IH |].
    destruct (length x =? 0)%nat eqn:H0; [discriminate Hn |].
    injection Hn as <-. apply Nat.eqb_neq in H0. lia.
  - rewrite update_model_feature_count in Hn. now apply IH.
  - now apply IH.
Qed.

(** X3.  In every reachable detector: while no dimension is recorded the
    buffer is empty; once a dimension [n] is recorded it is at least 1 and
    every buffered sample has exactly [n] features. *)
Theorem buffer_is_rectangular (s : AnomalyDetector) :
  reachable s ->
  (feature_count s = None -> data_buffer s = []) /\
  (forall n, feature_count s = Some n ->
     (0 < n)%nat /\ Forall (fun r => length r = n) (data_buffer s)).
Proof.
  intros Hreach.
  pose proof (reachable_well_shaped s Hreach) as Hws. unfold well_shaped in Hws.
  split.
  - intros Hnone. now rewrite Hnone in Hws.
  - intros n Hn. split; [now apply (reachable_dimension_positive s) |].
    now rewrite Hn in Hws.
Qed.

Lemma predict_anomaly_count (s : AnomalyDetector) (x : list R) :
  (anomaly_count s <= anomaly_count (snd (predict s x)) <= S (anomaly_count s))%nat /\
  prediction_count (snd (predict s x)) = S (prediction_count s).
Proof.
  destruct (accepted_dec s x) as [Hacc | Hrej].
  - destruct (predict_accepted_shape s x Hacc)
      as (_ & _ & _ & -> & _ & _ & _ & _ & Hc).
    destruct (scoring_state_fields s x) as (_ & _ & _ & ->).
    destruct (scoring_state_history s x) as [_ Hc1]. rewrite Hc1 in Hc.
    split; [| reflexivity]. destruct Hc as [-> | [_ ->]]; lia.
  - rewrite (predict_rejected _ _ Hrej). simpl. split; [lia | reflexivity].
Qed.

Lemma reachable_anomaly_count (s : AnomalyDetector) :
  reachable s -> (anomaly_count s <= prediction_count s)%nat.
Proof.
  induction 1 as [b t | s x _ IH | s _ IH | s _ _].
  - simpl. lia.
  - destruct (predict_anomaly_count s x) as [Hc ->]. lia.
  - destruct (update_model_history s) as [_ ->].
    destruct (update_model_config s) as (_ & _ & ->). exact IH.
  - simpl. lia.
Qed.

(** X4.  In every reachable detector the anomaly counter is at most the
    prediction counter, so the anomaly rate [get_statistics] reports lies
    between 0 and 1. *)
Theorem anomaly_rate_is_a_fraction (s : AnomalyDetector) :
  reachable s ->
  (anomaly_count s <= prediction_count s)%nat /\
  0 <= stat_anomaly_rate (get_statistics s) <= 1.
Proof.
  intros Hreach. pose proof (reachable_anomaly_count s Hreach) as Hle.
  split; [exact Hle |]. simpl.
  destruct (0 <? prediction_count s)%nat eqn:Hpos; [| lra].
  apply Nat.ltb_lt in Hpos.
  assert (Hp : 0 < INR (prediction_count s)) by now apply lt_0_INR.
  pose proof (pos_INR (anomaly_count s)) as Ha.
  pose proof (le_INR _ _ Hle) as Hap.
  split.
  - apply Rle_mult_inv_pos; assumption.
  - apply (Rmult_le_reg_r (INR (prediction_count s))); [exact Hp |].
    unfold Rdiv. rewrite Rmult_assoc, Rinv_l by lra. lra.
Qed.

(** ** The regimes of [predict] *)

Lemma scoring_state_untrained (s : AnomalyDetector) (x : list R) :
  is_trained s = false ->
  (length (Deque.append (buffer_size s) (data_buffer s) x) < 20 \/
   length (Deque.append (buffer_size s) (data_buffer s) x) < buffer_size s)%nat ->
  scoring_state s x =
    buffer_sample x (store_feature_count x (count_prediction s)) /\
  trained_path s x = false.
Proof.
  intros Htr Hlen.
  destruct (buffered_fields s x) as (Hb & Hbs & _ & Ht & _).
  assert (Hst : scoring_state s x =
                buffer_sample x (store_feature_count x (count_prediction s))).
  { unfold scoring_state. cbv zeta.
    destruct (length (data_buffer _) <? 20)%nat eqn:Hcold; [reflexivity |].
    unfold auto_train. rewrite Hbs, Hb.
    apply Nat.ltb_ge in Hcold. rewrite Hb in Hcold.
    replace (buffer_size s <=? _)%nat with false;
      [now rewrite andb_false_r |].
    symmetry. apply Nat.leb_gt. lia. }
  split; [exact Hst |].
  unfold trained_path. cbv zeta. rewrite Hst, Ht, Htr. apply andb_false_r.
Qed.

(** X6.  While the detector is untrained and the buffer, with the accepted
    sample appended, is not yet full, [predict] answers with the statistical
    score alone, also beyond 20 samples, and leaves the trained flag, the
    anomaly counter and both estimators untouched. *)
Theorem statistical_until_buffer_full (s : AnomalyDetector) (features : list R) :
  accepted s features ->
  is_trained s = false ->
  let buffer := Deque.append (buffer_size s) (data_buffer s) features in
  (length buffer < buffer_size s)%nat ->
  let s' := snd (predict s features) in
  fst (predict s features) = statistical_anomaly_score buffer features /\
  is_trained s' = false /\
  anomaly_count s' = anomaly_count s /\
  scaler s' = scaler s /\ model s' = model s.
Proof.
  intros Hacc Htr buffer Hlen s'. subst buffer s'.
  destruct (scoring_state_untrained s features Htr (or_intror Hlen))
    as [Hst Hpath].
  destruct (buffered_fields s features)
    as (Hb & _ & _ & Ht & Hsc & Hmo & _ & Hac & _).
  rewrite (predict_statistical _ _ Hacc Hpath). simpl. rewrite Hst.
  rewrite Hb, Ht, Hac, Hsc, Hmo. auto.
Qed.

Lemma reachable_small_buffer (s : AnomalyDetector) :
  reachable s ->
  (buffer_size s < 20)%nat ->
  is_trained s = false /\ anomaly_count s = 0%nat.
Proof.
  induction 1 as [b t | s x Hreach IH | s Hreach IH | s _ _]; intros Hbs.
  - auto.
  - destruct (apply_operation_config s (Predict x)) as [Hcfg _].
    simpl in Hcfg. rewrite Hcfg in Hbs. destruct (IH Hbs) as [Htr Hac].
    destruct (accepted_dec s x) as [Hacc | Hrej].
    + assert (Hlen : (length (Deque.append (buffer_size s) (data_buffer s) x)
                      < 20)%nat)
        by (rewrite DequeFacts.append_length; lia).
      destruct (scoring_state_untrained s x Htr (or_introl Hlen))
        as [Hst Hpath].
      destruct (buffered_fields s x) as (_ & _ & _ & Ht & _ & _ & _ & Hc & _).
      rewrite (predict_statistical _ _ Hacc Hpath). simpl. rewrite Hst.
      rewrite Ht, Hc. auto.
    + rewrite (predict_rejected _ _ Hrej). auto.
  - destruct (update_model_config s) as (Hcfg & _). rewrite Hcfg in Hbs.
    destruct (reachable_lengths s Hreach) as [Hlen _].
    unfold update_model.
    replace (length (data_buffer s) <? 20)%nat with true
      by (symmetry; apply Nat.ltb_lt; lia).
    now apply IH.
  - auto.
Qed.

(** X7.  A detector constructed with a buffer bound below 20 never becomes
    trained and never counts an anomaly, whatever it is fed and however often
    [update_model] is called: its buffer cannot reach the 20 samples that
    training asks for. *)
Theorem small_buffer_never_trains (s : AnomalyDetector) :
  reachable s ->
  (buffer_size s < 20)%nat ->
  is_trained s = false /\
  anomaly_count s = 0%nat /\
  stat_anomaly_rate (get_statistics s) = 0.
Proof.
  intros Hreach Hbs.
  destruct (reachable_small_buffer s Hreach Hbs) as [Htr Hac].
  repeat split; try assumption.
  simpl. rewrite Hac. destruct (0 <? prediction_count s)%nat; [| reflexivity].
  simpl. unfold Rdiv. apply Rmult_0_l.
Qed.

(** X8.  A detector whose buffer bound is below 5 scores every vector 0.0:
    the buffer never holds the 5 samples the statistical scorer asks for. *)
Theorem tiny_buffer_scores_zero (s : AnomalyDetector) (features : list R) :
  (buffer_size s < 5)%nat -> fst (predict s features) = 0.
Proof.
  intros Hbs.
  destruct (accepted_dec s features) as [Hacc | Hrej].
  - rewrite (predict_accepted _ _ Hacc). unfold score_buffered.
    destruct (buffered_fields s features) as (Hb & _).
    assert (Hlen : (length (Deque.append (buffer_size s) (data_buffer s) features)
                    < 5)%nat)
      by (rewrite DequeFacts.append_length; lia).
    rewrite Hb.
    replace (length _ <? 20)%nat with true by (symmetry; apply Nat.ltb_lt; lia).
    simpl. unfold statistical_anomaly_score.
    apply Nat.ltb_lt in Hlen. now rewrite Hlen.
  - now rewrite (predict_rejected _ _ Hrej).
Qed.

Lemma deque_append_full {A : Type} (maxlen : nat) (d : list A) (x : A) :
  length d = maxlen -> (0 < maxlen)%nat ->
  Deque.append maxlen d x = tl d ++ [x].
Proof.
  intros Hlen Hpos. unfold Deque.append. rewrite length_app. cbn [length].
  replace (length d + 1 - maxlen)%nat with 1%nat by lia.
  destruct d as [| a d]; [simpl in Hlen; lia | reflexivity].
Qed.

(** X9.  The sample buffer is first-in first-out: an accepted vector becomes
    the newest entry, and when the buffer is full the oldest entry, and only
    that one, leaves. *)
Theorem buffer_is_first_in_first_out (s : AnomalyDetector) (features : list R) :
  accepted s features ->
  (length (data_buffer s) <= buffer_size s)%nat ->
  (0 < buffer_size s)%nat ->
  data_buffer (snd (predict s features)) =
    (if (length (data_buffer s) <? buffer_size s)%nat
     then data_buffer s else tl (data_buffer s)) ++ [features].
Proof.
  intros Hacc Hlen Hpos.
  destruct (predict_accepted_shape s features Hacc) as (-> & _).
  destruct (scoring_state_fields s features) as (-> & _).
  destruct (length (data_buffer s) <? buffer_size s)%nat eqn:Hroom.
  - apply Nat.ltb_lt in Hroom. now apply DequeFacts.append_room.
  - apply Nat.ltb_ge in Hroom. apply deque_append_full; lia.
Qed.

(** X10.  Once the detector is trained, [predict] neither retrains nor
    clears the flag: trained flag, scaler and forest come out as they went
    in, whether the vector is accepted or not and whether scoring raises or
    not. *)
Theorem predict_keeps_a_trained_model (s : AnomalyDetector) (features : list R) :
  is_trained s = true ->
  let s' := snd (predict s features) in
  is_trained s' = true /\ scaler s' = scaler s /\ model s' = model s.
Proof.
  intros Htr s'. subst s'.
  destruct (accepted_dec s features) as [Hacc | Hrej].
  - destruct (predict_accepted_shape s features Hacc)
      as (_ & _ & _ & _ & -> & -> & -> & _).
    destruct (buffered_fields s features) as (_ & _ & _ & Ht & Hsc & Hmo & _).
    assert (Hst : scoring_state s features =
                  buffer_sample features
                    (store_feature_count features (count_prediction s))).
    { unfold scoring_state. cbv zeta.
      destruct (_ <? 20)%nat; [reflexivity |].
      unfold auto_train. now rewrite Ht, Htr. }
    rewrite Hst, Ht, Hsc, Hmo. auto.
  - rewrite (predict_rejected _ _ Hrej). simpl. auto.
Qed.

(** X11.  The sample that fills the buffer trains the detector: when an
    untrained detector accepts a vector that brings the buffer to its bound
    (of at least 20) and the fitting work returns, [predict] leaves the
    detector trained, holding the scaler and the forest of that round, and
    scores this very vector on the trained branch. *)
Theorem full_buffer_trains
  (s : AnomalyDetector) (features : list R)
  (c : Scaler) (m d : list R) (f : Forest) :
  accepted s features ->
  is_trained s = false ->
  let s0 := buffer_sample features
              (store_feature_count features (count_prediction s)) in
  (20 <= length (data_buffer s0))%nat ->
  (buffer_size s <= length (data_buffer s0))%nat ->
  fit_round s0 = Fitted c m d f ->
  let s' := snd (predict s features) in
  trained_path s features = true /\
  is_trained s' = true /\ scaler s' = c /\ model s' = f.
Proof.
  intros Hacc Htr s0 H20 Hfull Hfit s'. subst s'.
  destruct (buffered_fields s features) as (_ & Hbs & _ & Ht & _).
  fold s0 in Hbs, Ht.
  assert (Hst : scoring_state s features = update_model s0).
  { unfold scoring_state. cbv zeta. fold s0.
    replace (length (data_buffer s0) <? 20)%nat with false
      by (symmetry; apply Nat.ltb_ge; lia).
    unfold auto_train. rewrite Ht, Htr, Hbs.
    replace (buffer_size s <=? length (data_buffer s0))%nat with true
      by (symmetry; apply Nat.leb_le; lia).
    reflexivity. }
  assert (Hup : update_model s0 =
                set_is_trained true
                  (set_model f (set_feature_stats (Some m) (Some d)
                     (set_scaler c s0)))).
  { unfold update_model.
    replace (length (data_buffer s0) <? 20)%nat with false
      by (symmetry; apply Nat.ltb_ge; lia).
    now rewrite Hfit. }
  assert (Hpath : trained_path s features = true).
  { unfold trained_path. cbv zeta. rewrite Hst, Hup.
    apply andb_true_intro. split; [| reflexivity].
    apply Nat.leb_le. exact H20. }
  destruct (predict_accepted_shape s features Hacc)
    as (_ & _ & _ & _ & -> & -> & -> & _).
  rewrite Hst, Hup. simpl. auto.
Qed.

End DetectorInvariants.

(** ** The two scorers *)

Lemma exp_monotone (a b : R) : a <= b -> exp a <= exp b.
Proof.
  intros [Hlt | ->]; [left; now apply exp_increasing | right; reflexivity].
Qed.

(** X12.  [_normalize_score] maps the decision value 0 to 0.5 and is
    antitone: a lower (more anomalous) decision value never gets a lower
    score. *)
Theorem normalize_score_is_antitone :
  normalize_score 0 = 1 / 2 /\
  (forall d1 d2, d1 <= d2 -> normalize_score d2 <= normalize_score d1).
Proof.
  split.
  - rewrite normalize_score_logistic.
    replace (- 10 * (- 0)) with 0 by lra. rewrite exp_0. lra.
  - intros d1 d2 Hle. rewrite !normalize_score_logistic.
    pose proof (exp_pos (- 10 * (- d1))) as Hp1.
    assert (Hexp : exp (- 10 * (- d1)) <= exp (- 10 * (- d2)))
      by (apply exp_monotone; lra).
    unfold Rdiv. rewrite !Rmult_1_l.
    apply Rinv_le_contravar; lra.
Qed.

Lemma normalize_score_inlier (d : R) : 0 <= d -> normalize_score d <= 1 / 2.
Proof.
  intros Hd. rewrite normalize_score_logistic.
  assert (Hexp : 1 <= exp (- 10 * (- d))).
  { rewrite <- exp_0. apply exp_monotone. lra. }
  unfold Rdiv. rewrite Rmult_1_l.
  replace (1 * / 2) with (/ 2) by lra.
  apply Rinv_le_contravar; lra.
Qed.

Section TrainedBranch.

Context {E : Estimators}.

(** X14.  On the trained branch a vector the forest puts on the normal side
    (decision value at least 0) is never counted as an anomaly when the
    threshold is 0.65 or more, the default 0.7 included, whatever the
    statistical scorer says: the anomaly counter stays as it was. *)
Theorem inlier_is_never_flagged
  (s : AnomalyDetector) (features : list R)
  (features_scaled : list (list R)) (label : Z) (labels : list Z)
  (d : R) (ds : list R) :
  accepted s features ->
  let s1 := scoring_state s features in
  trained_path s features = true ->
  scaler_transform (scaler s1) [features] = Some features_scaled ->
  forest_predict (model s1) features_scaled = Some (label :: labels) ->
  forest_decision (model s1) features_scaled = Some (d :: ds) ->
  0 <= d ->
  0.65 <= threshold s ->
  anomaly_count (snd (predict s features)) = anomaly_count s.
Proof.
  intros Hacc s1 Hpath Hsc Hlab Hdec Hd Hth.
  set (v := 0.7 * normalize_score d
            + 0.3 * statistical_anomaly_score (data_buffer s1) features).
  assert (Hv : trained_score s1 features = Some v).
  { unfold trained_score. rewrite Hsc, Hlab, Hdec. reflexivity. }
  assert (Hle : v <= 0.65).
  { pose proof (normalize_score_inlier d Hd).
    pose proof (statistical_anomaly_score_bounds (data_buffer s1) features).
    unfold v. lra. }
  rewrite (predict_trained _ _ _ Hacc Hpath Hv). simpl snd.
  destruct (scoring_state_fields s features) as (_ & _ & Hth1 & _).
  destruct (scoring_state_history s features) as [_ Hc1].
  unfold set_anomaly_count. cbn [anomaly_count]. rewrite Hth1.
  destruct (Rgt_dec v (threshold s)) as [Hgt | _]; [lra | exact Hc1].
Qed.

End TrainedBranch.

(** * Further properties of the stream session *)

Section SessionInvariants.

Variable H : Type.
Variable json_loads : string -> option json.
Variable on_data_callback : json -> H -> H * option exn.

Abbreviation handle' := (handle_message json_loads on_data_callback).
Abbreviation receive' := (receive_frames json_loads on_data_callback).

(** What one frame can do to the client: nothing but count it and log, or,
    for sensor data, run the handler on the decoded payload as well.  The
    sent counter is left out: the handler the service registers answers every
    sample through [send_anomaly_score] on this same client, so the counter
    may move while a frame is handled. *)
Lemma handle_message_cases (message : string) (c : Client H) :
  let c' := fst (handle' message c) in
  messages_received c' = S (messages_received c) /\
  connected c' = connected c /\
  should_reconnect c' = should_reconnect c /\
  reconnect_count c' = reconnect_count c /\
  ((forwarded c' = forwarded c /\ handler c' = handler c /\
    snd (handle' message c) = None) \/
   (exists data, json_loads message = Some data /\ sensor_payload data /\
      forwarded c' = forwarded c ++ [data] /\
      handler c' = fst (on_data_callback data (handler c)) /\
      snd (handle' message c) =
        match snd (on_data_callback data (handler c)) with
        | Some HandlerBaseException => Some HandlerBaseException
        | _ => None
        end)).
Proof.
  cbv zeta. unfold handle_message, handle_body.
  destruct (json_loads message) as [[| b | r | s | l | m] |] eqn:Hdec;
    simpl; try (repeat split; auto; fail).
  assert (Hlp : forall c0 : Client H,
             messages_received (log_progress c0) = messages_received c0 /\
             connected (log_progress c0) = connected c0 /\
             should_reconnect (log_progress c0) = should_reconnect c0 /\
             reconnect_count (log_progress c0) = reconnect_count c0 /\
             forwarded (log_progress c0) = forwarded c0 /\
             handler (log_progress c0) = handler c0).
  { intros c0. unfold log_progress. destruct (_ =? 0)%nat; simpl; repeat split. }
  destruct (is_connection (dict_get "type" m)) eqn:Hconn.
  - simpl.
    destruct (Hlp (write_log (LogConnectionStatus (dict_get "status" m))
                     (count_received c)))
      as (-> & -> & -> & -> & -> & ->).
    simpl. repeat split; auto.
  - destruct (dict_mem "timestamp" m) eqn:Hts;
      destruct (dict_mem "orientation" m) eqn:Hor; simpl andb; cbv iota;
      try (simpl;
           destruct (Hlp (write_log (LogUnknown (JObj m)) (count_received c)))
             as (-> & -> & -> & -> & -> & ->);
           simpl; repeat split; auto; fail).
    assert (Hpay : sensor_payload (JObj m)).
    { exists m. split; [reflexivity |]. split.
      - intros Heq. rewrite Heq in Hconn. simpl in Hconn.
        discriminate Hconn.
      - unfold dict_mem in Hts, Hor.
        destruct (dict_get "timestamp" m) as [t |]; [| discriminate Hts].
        destruct (dict_get "orientation" m) as [o |]; [| discriminate Hor].
        split; eexists; reflexivity. }
    unfold call_handler. simpl handler.
    destruct (on_data_callback (JObj m) (handler c)) as [h [e |]] eqn:Hcb.
    + destruct e; simpl; repeat split; auto; right; exists (JObj m);
        rewrite Hcb; simpl; repeat split; auto.
    + simpl fst.
      match goal with
      | |- context [log_progress ?c0] =>
          destruct (Hlp c0) as (-> & -> & -> & -> & -> & ->)
      end.
      simpl. repeat split; auto. right. exists (JObj m).
      rewrite Hcb. simpl. repeat split; auto.
Qed.

(** X15.  Every frame handed to [_handle_message] raises the received
    counter by exactly one, whether it decodes or not, is forwarded or not,
    and whatever the handler raises; [_handle_message] itself writes no other
    field, so the connection flags and the reconnect counter, which the
    service's handler never writes either, are as before.  Nothing is said of
    the sent counter: the handler sends the score back through this client. *)
Theorem every_frame_is_counted (message : string) (c : Client H) :
  let c' := fst (handle' message c) in
  messages_received c' = S (messages_received c) /\
  connected c' = connected c /\
  should_reconnect c' = should_reconnect c /\
  reconnect_count c' = reconnect_count c.
Proof.
  destruct (handle_message_cases message c) as (H1 & H2 & H3 & H4 & _).
  cbv zeta. auto.
Qed.

(** X16.  An exception leaves [_handle_message] only when the frame is
    sensor data and the data handler raised a [BaseException]; the payload
    was handed over all the same, and the frames after it stay unread. *)
Theorem only_base_exceptions_escape
  (message : string) (c : Client H) (e : exn) :
  snd (handle' message c) = Some e ->
  e = HandlerBaseException /\
  (exists data, json_loads message = Some data /\ sensor_payload data /\
     snd (on_data_callback data (handler c)) = Some HandlerBaseException /\
     forwarded (fst (handle' message c)) = forwarded c ++ [data]) /\
  (forall rest, receive' (message :: rest) c = (fst (handle' message c), Some e)).
Proof.
  intros Hesc.
  destruct (handle_message_cases message c)
    as (_ & _ & _ & _ & [(_ & _ & Hnone) | (data & Hdec & Hpay & Hf & _ & He)]).
  - rewrite Hnone in Hesc. discriminate Hesc.
  - rewrite He in Hesc.
    destruct (snd (on_data_callback data (handler c))) as [[| | |] |] eqn:Hcb;
      try discriminate Hesc.
    injection Hesc as <-. split; [reflexivity |]. split.
    + exists data. auto.
    + intros rest. simpl.
      destruct (handle' message c) as [c' e'] eqn:Hh. simpl in He.
      rewrite He. reflexivity.
Qed.

Lemma receive_frames_forwarded (frames : list string) (c : Client H) (d : json) :
  In d (forwarded (fst (receive' frames c))) ->
  In d (forwarded c) \/
  (sensor_payload d /\ exists frame, In frame frames /\ json_loads frame = Some d).
Proof.
  revert c. induction frames as [| message rest IH]; intros c Hin.
  - now left.
  - simpl in Hin.
    destruct (handle_message_cases message c)
      as (_ & _ & _ & _ & Hcases).
    destruct (handle' message c) as [c' [e |]] eqn:Hh; simpl in Hin, Hcases.
    + destruct Hcases as [(Hf & _) | (data & Hdec & Hpay & Hf & _)].
      * rewrite Hf in Hin. now left.
      * rewrite Hf in Hin. apply in_app_or in Hin.
        destruct Hin as [Hin | [<- | []]]; [now left |].
        right. split; [exact Hpay |]. exists message. split; [now left | exact Hdec].
    + destruct (IH c' Hin) as [Hc' | (Hpay & frame & Hfr & Hdec)].
      * destruct Hcases as [(Hf & _) | (data & Hdec & Hpay & Hf & _)].
        -- rewrite Hf in Hc'. now left.
        -- rewrite Hf in Hc'. apply in_app_or in Hc'.
           destruct Hc' as [Hc' | [<- | []]]; [now left |].
           right. split; [exact Hpay |].
           exists message. split; [now left | exact Hdec].
      * right. split; [exact Hpay |]. exists frame. split; [now right | exact Hdec].
Qed.

(** X17.  Whatever frames a new client reads, every payload its data handler
    is ever called with is the decoding of one of these frames, is an object
    that carries both a timestamp and an orientation field, and does not say
    ["connection"]. *)
Theorem handler_sees_sensor_data_only
  (frames : list string) (h : H) (d : json) :
  In d (forwarded (fst (receive' frames (client_init h)))) ->
  sensor_payload d /\
  exists frame, In frame frames /\ json_loads frame = Some d.
Proof.
  intros Hin. apply receive_frames_forwarded in Hin.
  destruct Hin as [[] | Hd]. exact Hd.
Qed.

End SessionInvariants.

(** * Properties of the connection *)

Section ConnectionFacts.

Context {T : Transport}.
Variable H : Type.

Implicit Types (l : Link H) (o : outbound) (os : list outbound).

Lemma send_without_socket l o : sending_socket l = None -> send l o = l.
Proof.
  intros Hnone.
  destruct o; simpl;
    unfold send_anomaly_score, send_command, send_heartbeat;
    now rewrite Hnone.
Qed.

Lemma sends_without_socket l os :
  sending_socket l = None -> fold_left send os l = l.
Proof.
  intros Hnone. induction os as [| o os IH]; [reflexivity |].
  simpl. now rewrite (send_without_socket l o Hnone).
Qed.

Lemma disconnect_flags l :
  connected (client (disconnect l)) = false /\
  should_reconnect (client (disconnect l)) = false.
Proof.
  unfold disconnect. cbv zeta.
  destruct (websocket (set_connected false (set_should_reconnect false l)));
    auto.
Qed.

(** X18.  After [disconnect] the client is neither connected nor willing to
    reconnect, its counters are what they were, and whatever is then asked
    of it (scores, commands, heartbeats, in any number and order) leaves
    the client and the outside world exactly as they are: nothing is sent. *)
Theorem disconnect_silences_the_client l os :
  let l' := disconnect l in
  connected (client l') = false /\
  should_reconnect (client l') = false /\
  messages_sent (client l') = messages_sent (client l) /\
  messages_received (client l') = messages_received (client l) /\
  reconnect_count (client l') = reconnect_count (client l) /\
  fold_left send os l' = l'.
Proof.
  cbv zeta. destruct (disconnect_flags l) as [Hc Hr].
  repeat split; try assumption.
  - unfold disconnect. cbv zeta. destruct (websocket _); reflexivity.
  - unfold disconnect. cbv zeta. destruct (websocket _); reflexivity.
  - unfold disconnect. cbv zeta. destruct (websocket _); reflexivity.
  - apply sends_without_socket. unfold sending_socket. now rewrite Hc.
Qed.

Lemma connect_fields l :
  let l' := fst (connect l) in
  snd (connect l) = connected (client l') /\
  url l' = url l /\
  reconnect_interval l' = reconnect_interval l /\
  slept l' = slept l /\
  should_reconnect (client l') = should_reconnect (client l) /\
  messages_sent (client l') = messages_sent (client l) /\
  messages_received (client l') = messages_received (client l) /\
  reconnect_count (client l') = reconnect_count (client l) /\
  (snd (connect l) = true -> sending_socket l' <> None).
Proof.
  cbv zeta. unfold connect.
  destruct (ws_connect (url l) (net l)) as [n [sock |]]; simpl.
  - destruct (ws_recv sock n) as [n' [welcome |]]; simpl;
      repeat split; auto; discriminate.
  - repeat split; auto. discriminate.
Qed.

(** X19.  [connect] returns normally exactly when it leaves the client
    connected, and then there is a socket to send on; whether the dial is
    refused or the greeting does not arrive, the flag is false afterwards,
    also if it was true before, and every later send is a no-op.  No counter
    and no setting is touched either way. *)
Theorem connect_reports_connection l os :
  let l' := fst (connect l) in
  snd (connect l) = connected (client l') /\
  (snd (connect l) = true -> sending_socket l' <> None) /\
  (snd (connect l) = false -> fold_left send os l' = l') /\
  should_reconnect (client l') = should_reconnect (client l) /\
  messages_sent (client l') = messages_sent (client l) /\
  messages_received (client l') = messages_received (client l) /\
  reconnect_count (client l') = reconnect_count (client l).
Proof.
  cbv zeta.
  destruct (connect_fields l) as (Hc & _ & _ & _ & Hr & Hs & Hm & Hrc & Hsock).
  repeat split; try assumption.
  intros Hfail. apply sends_without_socket.
  unfold sending_socket. now rewrite <- Hc, Hfail.
Qed.

Lemma reconnect_fields l :
  reconnect_count (client (reconnect l)) = S (reconnect_count (client l)) /\
  slept (reconnect l) = slept l ++ [reconnect_interval l] /\
  reconnect_interval (reconnect l) = reconnect_interval l /\
  messages_sent (client (reconnect l)) = messages_sent (client l) /\
  should_reconnect (client (reconnect l)) = should_reconnect (client l).
Proof.
  unfold reconnect. cbv zeta.
  destruct (connect_fields
              (sleep (reconnect_interval (count_reconnect l)) (count_reconnect l)))
    as (_ & _ & Hi & Hsl & Hr & Hs & _ & Hrc & _).
  rewrite Hrc, Hsl, Hi, Hs, Hr. repeat split.
Qed.

(** X20.  Every [_reconnect] counts one attempt and sleeps once, for the
    configured interval, before it dials, whether the dial then succeeds or
    not: after [n] attempts the counter is up by [n] and the client has
    slept [n] times the same interval; the delay never grows. *)
Theorem backoff_is_constant (n : nat) l :
  let l' := Nat.iter n reconnect l in
  reconnect_count (client l') = (reconnect_count (client l) + n)%nat /\
  slept l' = slept l ++ repeat (reconnect_interval l) n /\
  messages_sent (client l') = messages_sent (client l).
Proof.
  cbv zeta. induction n as [| n (IHc & IHs & IHm)].
  - simpl. rewrite app_nil_r. repeat split. lia.
  - simpl Nat.iter.
    assert (Hi : reconnect_interval (Nat.iter n reconnect l) =
                 reconnect_interval l).
    { clear. induction n as [| n IH]; [reflexivity |].
      simpl Nat.iter.
      destruct (reconnect_fields (Nat.iter n reconnect l)) as (_ & _ & -> & _).
      exact IH. }
    destruct (reconnect_fields (Nat.iter n reconnect l))
      as (-> & -> & _ & -> & _).
    rewrite IHc, IHs, IHm, Hi. repeat split; [lia |].
    rewrite <- app_assoc. f_equal.
    change [reconnect_interval l] with (repeat (reconnect_interval l) 1).
    rewrite <- repeat_app. f_equal. lia.
Qed.

Lemma send_messages_sent l o :
  (messages_sent (client l) <= messages_sent (client (send l o))
   <= messages_sent (client l) + (if is_score o then 1 else 0))%nat /\
  connected (client (send l o)) = connected (client l) /\
  websocket (send l o) = websocket l.
Proof.
  destruct o; simpl;
    unfold send_anomaly_score, send_command, send_heartbeat;
    destruct (sending_socket l) as [sock |]; simpl;
    try (repeat split; lia).
  destruct (ws_send sock _ (net l)) as [n [|]]; simpl; repeat split; lia.
Qed.

(** X21.  The sent counter counts scores only: over any sequence of sends
    it never goes down and never rises by more than the number of scores in
    the sequence.  Commands and heartbeats, delivered or not, are not
    counted. *)
Theorem sent_counter_counts_scores l os :
  (messages_sent (client l) <= messages_sent (client (fold_left send os l))
   <= messages_sent (client l) + length (filter is_score os))%nat.
Proof.
  revert l. induction os as [| o os IH]; intros l; [simpl; lia |].
  simpl fold_left. specialize (IH (send l o)).
  destruct (send_messages_sent l o) as [Hstep _].
  simpl filter. destruct (is_score o); simpl length; lia.
Qed.

End ConnectionFacts.

(** X22.  A frame that decodes to one of the client's own outbound messages
    (a prediction, a command with whatever parameters, a heartbeat) is never
    taken for sensor data: the data handler is not called and no exception
    leaves [_handle_message]. *)
Theorem own_messages_are_not_sensor_data
  (H : Type) (json_loads : string -> option json)
  (on_data_callback : json -> H -> H * option exn)
  (frame : string) (c : Client H) (o : outbound) (timestamp : string) :
  json_loads frame = Some (outbound_message o timestamp) ->
  let r := handle_message json_loads on_data_callback frame c in
  snd r = None /\
  forwarded (fst r) = forwarded c /\
  handler (fst r) = handler c.
Proof.
  intros Hdec r. subst r.
  destruct (handle_message_cases H json_loads on_data_callback frame c)
    as (_ & _ & _ & _ & [(Hf & Hh & Hn) | (data & Hd & Hpay & _)]).
  - auto.
  - exfalso. rewrite Hdec in Hd. injection Hd as <-.
    destruct Hpay as (m & Hm & _ & _ & [v Hv]).
    destruct o; simpl in Hm; injection Hm as <-; simpl in Hv; discriminate Hv.
Qed.

(** * Properties of the service *)

Lemma py_get_not_object (v : json) (key : string) (default : json) :
  (forall m, v <> JObj m) -> py_get v key default = None.
Proof.
  intros Hno. destruct v as [| b | r | s | l | m]; try reflexivity.
  now destruct (Hno m).
Qed.

Lemma extract_features_length (sensor_data : list (string * json)) :
  length (extract_features sensor_data) = 14%nat.
Proof.
  unfold extract_features, extract_features_try. cbv zeta.
  repeat match goal with
         | |- context [match py_get ?v ?k ?d with _ => _ end] =>
             destruct (py_get v k d)
         | |- context [match as_number ?v with _ => _ end] =>
             destruct (as_number v)
         end;
    try reflexivity.
  rewrite !length_app. cbn [length].
  replace (length (match get_default "euler_degrees" sensor_data (JArr zeros3) with
                   | JArr l => if (3 <=? length l)%nat then firstn 3 l else zeros3
                   | _ => zeros3
                   end)) with 3%nat; [reflexivity |].
  destruct (get_default "euler_degrees" sensor_data (JArr zeros3))
    as [| ? | ? | ? | l | ?]; try reflexivity.
  destruct (3 <=? length l)%nat eqn:Hlen; [| reflexivity].
  apply Nat.leb_le in Hlen. rewrite length_firstn. lia.
Qed.

(** X23.  [_extract_features] returns 14 features for every payload:
    whatever is missing, malformed or of the wrong type, on the regular way
    out as on the exceptional one. *)
Theorem extract_features_has_14 (sensor_data : list (string * json)) :
  length (extract_features sensor_data) = 14%nat.
Proof.
  exact (extract_features_length sensor_data).
Qed.

(** X24.  One malformed block costs the whole vector: when
    [raw_acceleration], [raw_gyroscope] or [velocity] is present but is no
    object, [_extract_features] returns fourteen times 0.0, the confidence
    and system-health features included, whose default is 1.0, and whatever
    the well-formed fields hold. *)
Theorem malformed_block_zeroes_the_vector
  (sensor_data : list (string * json)) (key : string) (v : json) :
  In key ["raw_acceleration"; "raw_gyroscope"; "velocity"]%string ->
  dict_get key sensor_data = Some v ->
  (forall m, v <> JObj m) ->
  extract_features sensor_data = repeat (JNum 0) 14.
Proof.
  intros Hkey Hget Hno.
  assert (Hblock : forall k d, py_get (get_default key sensor_data (JObj [])) k d
                               = None).
  { intros k d. unfold get_default. rewrite Hget. now apply py_get_not_object. }
  unfold extract_features, extract_features_try. cbv zeta.
  destruct Hkey as [<- | [<- | [<- | []]]].
  - now rewrite Hblock.
  - repeat match goal with
           | |- context [match py_get ?b ?k ?d with _ => _ end] =>
               lazymatch b with
               | get_default "raw_gyroscope"%string _ _ => rewrite (Hblock k d)
               | _ => destruct (py_get b k d)
               end
           end; reflexivity.
  - repeat match goal with
           | |- context [match py_get ?b ?k ?d with _ => _ end] =>
               lazymatch b with
               | get_default "velocity"%string _ _ => rewrite (Hblock k d)
               | _ => destruct (py_get b k d)
               end
           end; reflexivity.
Qed.

(** X25.  A payload that has none of the nine fields [_extract_features]
    reads gives the default vector: twelve times 0.0, then 1.0 for
    confidence and 1.0 for system health. *)
Theorem absent_fields_take_defaults (sensor_data : list (string * json)) :
  (forall key,
     In key ["raw_acceleration"; "raw_gyroscope"; "euler_degrees"; "velocity";
             "gps_speed"; "gps_heading"; "confidence"; "system_health"]%string ->
     dict_get key sensor_data = None) ->
  extract_features sensor_data = repeat (JNum 0) 12 ++ [JNum 1; JNum 1].
Proof.
  intros Habs.
  assert (Hdef : forall key d,
             In key ["raw_acceleration"; "raw_gyroscope"; "euler_degrees";
                     "velocity"; "gps_speed"; "gps_heading"; "confidence";
                     "system_health"]%string ->
             get_default key sensor_data d = d).
  { intros key d Hin. unfold get_default. now rewrite (Habs key Hin). }
  unfold extract_features, extract_features_try. cbv zeta.
  rewrite !Hdef by (simpl; tauto).
  simpl.
  replace (0 * 0 + 0 * 0 + 0 * 0) with 0 by lra. rewrite sqrt_0. reflexivity.
Qed.

Lemma as_floats_length (features : list json) (x : list R) :
  as_floats features = Some x -> length x = length features.
Proof.
  revert x. induction features as [| v rest IH]; intros x Hx.
  - injection Hx as <-. reflexivity.
  - simpl in Hx. destruct (as_number v) as [r |]; [| discriminate Hx].
    destruct (as_floats rest) as [rs |]; [| discriminate Hx].
    injection Hx as <-. simpl. f_equal. now apply IH.
Qed.

Section ServiceFacts.

Context {E : Estimators} {T : Transport}.
Variable H : Type.

Implicit Types (v : MLService H).

(** The detector of the service after one sample: [predict], then at most an
    [update_model]. *)
Lemma process_features_detector (x : list R) v :
  let d := snd (predict (anomaly_detector v) x) in
  (anomaly_detector (process_features x v) = d \/
   anomaly_detector (process_features x v) = update_model d) /\
  sample_count (process_features x v) = S (sample_count v) /\
  config (process_features x v) = config v /\
  (length (alerts v) <= length (alerts (process_features x v)))%nat /\
  (fst (predict (anomaly_detector v) x) > anomaly_threshold (config v) ->
   length (alerts (process_features x v)) = S (length (alerts v))).
Proof.
  cbv zeta. unfold process_features. cbv zeta.
  set (r := predict (anomaly_detector (count_sample v)) x).
  change (predict (anomaly_detector v) x) with r.
  change (config (set_anomaly_detector (snd r) (count_sample v)))
    with (config v).
  destruct (Rgt_dec (fst r) (anomaly_threshold (config v))) as [Hgt | Hle];
    simpl config;
    destruct (model_update_interval (config v) =? 0)%nat;
    simpl;
    try destruct (_ mod _ =? 0)%nat; simpl;
    destruct (ws_client v); simpl;
    rewrite ?length_app; simpl;
    repeat split; auto; try lia; try (intros; exfalso; auto; fail).
Qed.

Lemma update_model_all (s : AnomalyDetector) :
  data_buffer (update_model s) = data_buffer s /\
  buffer_size (update_model s) = buffer_size s /\
  threshold (update_model s) = threshold s /\
  prediction_count (update_model s) = prediction_count s /\
  feature_count (update_model s) = feature_count s /\
  anomaly_count (update_model s) = anomaly_count s.
Proof.
  destruct (update_model_config s) as (Hb & Ht & Hp).
  destruct (update_model_history s) as [_ Hc].
  repeat split; auto using update_model_data_buffer, update_model_feature_count.
Qed.

Lemma serving_step (cfg : MLServiceConfig) (k : nat) v (x : list R) :
  serving cfg k v -> length x = 14%nat ->
  serving cfg (S k) (process_features x v).
Proof.
  intros (Hs & Hp & Hbs & Hlen & Hfc) Hx.
  set (s := anomaly_detector v) in *.
  assert (Hacc : accepted s x).
  { split; [intros ->; discriminate Hx |].
    intros n Hn. destruct Hfc as [Hfc | [Hfc _]]; congruence. }
  destruct (predict_accepted_shape s x Hacc)
    as (Hb' & Hbs' & _ & Hp' & _).
  destruct (scoring_state_fields s x) as (Hb1 & Hbs1 & _ & Hp1).
  rewrite Hb1 in Hb'. rewrite Hbs1 in Hbs'. rewrite Hp1 in Hp'.
  assert (Hfc' : feature_count (snd (predict s x)) = Some 14%nat).
  { rewrite predict_feature_count.
    destruct Hfc as [-> | [-> _]]; [reflexivity |].
    rewrite Hx. reflexivity. }
  destruct (process_features_detector x v) as ([Hdet | Hdet] & Hsc & _).
  - unfold serving. rewrite Hdet, Hsc. fold s.
    rewrite Hb', Hbs', Hp', Hfc', DequeFacts.append_length, Hlen, Hbs, Hs, Hp.
    repeat split; auto. lia.
  - unfold serving. rewrite Hdet, Hsc. fold s.
    destruct (update_model_all (snd (predict s x)))
      as (-> & -> & _ & -> & -> & _).
    rewrite Hb', Hbs', Hp', Hfc', DequeFacts.append_length, Hlen, Hbs, Hs, Hp.
    repeat split; auto. lia.
Qed.

Lemma serving_serve (cfg : MLServiceConfig)
  (stream : list (list (string * json))) (k : nat) v v' :
  serving cfg k v ->
  serve stream v = Some v' ->
  serving cfg (k + length stream) v'.
Proof.
  revert k v. induction stream as [| p rest IH]; intros k v Hinv Hserve.
  - injection Hserve as <-. simpl. now rewrite Nat.add_0_r.
  - simpl in Hserve. unfold process_sensor_data in Hserve.
    destruct (as_floats (extract_features p)) as [x |] eqn:Hx;
      [| discriminate Hserve].
    apply as_floats_length in Hx. rewrite extract_features_length in Hx.
    simpl length. rewrite Nat.add_succ_r, <- Nat.add_succ_l.
    apply (IH (S k) (process_features x v)); [| exact Hserve].
    now apply serving_step.
Qed.

(** X26.  The service never feeds its detector a vector the detector
    rejects: as [_extract_features] always yields 14 features, every payload
    of a stream is counted, predicted on and taken into the buffer, which
    fills up to its bound, and the dimension the detector records is 14. *)
Theorem service_takes_every_sample
  (cfg : MLServiceConfig) (stream : list (list (string * json))) v' :
  serve stream (service_init cfg) = Some v' ->
  sample_count v' = length stream /\
  prediction_count (anomaly_detector v') = length stream /\
  length (data_buffer (anomaly_detector v')) =
    Nat.min (length stream) (config_buffer_size cfg) /\
  (stream <> [] -> feature_count (anomaly_detector v') = Some 14%nat).
Proof.
  intros Hserve.
  assert (Hinit : serving cfg 0 (service_init (H := H) cfg)).
  { unfold serving. simpl. repeat split; auto. }
  destruct (serving_serve cfg stream 0 _ _ Hinit Hserve)
    as (Hs & Hp & _ & Hlen & Hfc).
  simpl in Hs, Hp, Hlen, Hfc. repeat split; auto.
  intros Hne. destruct Hfc as [Hfc | [_ Hzero]]; [exact Hfc |].
  destruct stream; [congruence | discriminate Hzero].
Qed.

Lemma predict_counts_above_threshold (s : AnomalyDetector) (x : list R) :
  (anomaly_count (snd (predict s x)) <=
   anomaly_count s
   + (if Rgt_dec (fst (predict s x)) (threshold s) then 1 else 0))%nat.
Proof.
  destruct (accepted_dec s x) as [Hacc | Hrej].
  - destruct (scoring_state_history s x) as [_ Hc].
    destruct (scoring_state_fields s x) as (_ & _ & Hth & _).
    destruct (trained_path s x) eqn:Hpath.
    + destruct (trained_score (scoring_state s x) x) as [w |] eqn:Hw.
      * rewrite (predict_trained _ _ _ Hacc Hpath Hw).
        unfold set_anomaly_count. cbn [fst snd anomaly_count].
        rewrite Hth, Hc.
        destruct (Rgt_dec w (threshold s)); lia.
      * rewrite (predict_trained_failure _ _ Hacc Hpath Hw).
        cbn [fst snd]. rewrite Hc. lia.
    + rewrite (predict_statistical _ _ Hacc Hpath).
      cbn [fst snd]. unfold record_score, set_anomaly_history.
      cbn [anomaly_count]. rewrite Hc. lia.
  - rewrite (predict_rejected _ _ Hrej). simpl. lia.
Qed.

Lemma alerts_step (x : list R) v :
  threshold (anomaly_detector v) = anomaly_threshold (config v) ->
  (anomaly_count (anomaly_detector v) <= length (alerts v))%nat ->
  threshold (anomaly_detector (process_features x v)) =
    anomaly_threshold (config (process_features x v)) /\
  (anomaly_count (anomaly_detector (process_features x v)) <=
   length (alerts (process_features x v)))%nat.
Proof.
  intros Hth Hle.
  destruct (process_features_detector x v) as (Hdet & _ & Hcfg & Hmono & Halert).
  cbv zeta in Hdet, Halert.
  set (s := anomaly_detector v) in *.
  destruct (apply_operation_config s (Predict x)) as [_ Hth'].
  simpl in Hth'.
  pose proof (predict_counts_above_threshold s x) as Hcount.
  assert (Hd : threshold (snd (predict s x)) = anomaly_threshold (config v) /\
               (anomaly_count (snd (predict s x)) <=
                length (alerts (process_features x v)))%nat).
  { split; [congruence |].
    destruct (Rgt_dec (fst (predict s x)) (threshold s)) as [Hgt | Hngt].
    - rewrite Hth in Hgt. rewrite (Halert Hgt). lia.
    - lia. }
  rewrite Hcfg. destruct Hdet as [-> | ->]; [exact Hd |].
  destruct (update_model_all (snd (predict s x)))
    as (_ & _ & -> & _ & _ & ->).
  exact Hd.
Qed.

(** X27.  Every anomaly the detector counts, the service has alerted on:
    from a new service on, the detector's anomaly counter never exceeds the
    number of ANOMALY DETECTED warnings the service has logged. *)
Theorem alerts_cover_counted_anomalies
  (cfg : MLServiceConfig) (samples : list (list R)) :
  let v := fold_left (fun v x => process_features x v) samples
             (service_init (H := H) cfg) in
  (anomaly_count (anomaly_detector v) <= length (alerts v))%nat.
Proof.
  cbv zeta.
  assert (Hgen : forall v0 : MLService H,
             threshold (anomaly_detector v0) = anomaly_threshold (config v0) ->
             (anomaly_count (anomaly_detector v0) <= length (alerts v0))%nat ->
             (anomaly_count
                (anomaly_detector
                   (fold_left (fun v x => process_features x v) samples v0))
              <= length
                   (alerts
                      (fold_left (fun v x => process_features x v) samples v0)))%nat).
  { induction samples as [| x samples IH]; intros v0 Hth Hle; [exact Hle |].
    simpl. destruct (alerts_step x v0 Hth Hle) as [Hth' Hle'].
    now apply IH. }
  apply Hgen; simpl; [reflexivity | lia].
Qed.

End ServiceFacts.

(** * The further properties at concrete inputs *)

(** X1 on the overfull example, retrained, reset and fed a sample of another
    dimension. *)
Lemma configuration_is_fixed_witness :
  let ops := [UpdateModel; Reset; Predict [1; 2]] in
  buffer_size (run ops overfull_example) = 50%nat /\
  feature_count (run ops overfull_example) = Some 1%nat.
Proof.
  cbv zeta.
  destruct (configuration_is_fixed [UpdateModel; Reset; Predict [1; 2]]
              overfull_example) as (Hbs & _ & Hfc).
  split.
  - rewrite Hbs. lazy. reflexivity.
  - apply Hfc. lazy. reflexivity.
Defined.

(** X2 on the overfull example. *)
Lemma buffers_are_bounded_witness :
  (length (data_buffer overfull_example) <= buffer_size overfull_example)%nat /\
  (length (anomaly_history overfull_example) <= 100)%nat.
Proof.
  exact (buffers_are_bounded overfull_example overfull_example_reachable).
Defined.

(** X3 on the overfull example, whose recorded dimension is 1. *)
Lemma buffer_is_rectangular_witness :
  Forall (fun r => length r = 1%nat) (data_buffer overfull_example).
Proof.
  destruct (buffer_is_rectangular overfull_example overfull_example_reachable)
    as [_ Hdim].
  apply (Hdim 1%nat). lazy. reflexivity.
Defined.

(** X4 on the overfull example. *)
Lemma anomaly_rate_is_a_fraction_witness :
  0 <= stat_anomaly_rate (get_statistics overfull_example) <= 1.
Proof.
  exact (proj2 (anomaly_rate_is_a_fraction overfull_example
                  overfull_example_reachable)).
Defined.

(** X6 on a detector with 25 buffered samples, beyond the cold start and
    short of its bound of 50. *)
Lemma statistical_until_buffer_full_witness :
  let s := feed (repeat [0] 25) (@init (double 20 true) 50 0.7) in
  is_trained s = false /\
  fst (predict s [100]) =
    statistical_anomaly_score (data_buffer s ++ [[100]]) [100] /\
  is_trained (snd (predict s [100])) = false.
Proof.
  cbv zeta.
  set (s := feed (repeat [0] 25) (@init (double 20 true) 50 0.7)).
  assert (Htr : is_trained s = false) by (lazy; reflexivity).
  assert (Hacc : accepted s [100]).
  { split; [discriminate |].
    intros n Hn. lazy in Hn. injection Hn as <-. reflexivity. }
  assert (Hlen : (length (Deque.append (buffer_size s) (data_buffer s) [100%R])
                  < buffer_size s)%nat).
  { apply Nat.ltb_lt. lazy. reflexivity. }
  destruct (statistical_until_buffer_full s [100] Hacc Htr Hlen)
    as (Hscore & Htr' & _).
  split; [exact Htr |]. split; [| exact Htr'].
  rewrite Hscore. f_equal.
Defined.

(** X7 on a detector with a buffer of 10, fed 30 samples and asked to
    train. *)
Lemma small_buffer_never_trains_witness :
  let s := update_model (feed (repeat [0] 30) (@init (double 20 true) 10 0.7)) in
  is_trained s = false /\ anomaly_count s = 0%nat.
Proof.
  cbv zeta.
  set (s := update_model (feed (repeat [0] 30) (@init (double 20 true) 10 0.7))).
  assert (Hreach : reachable s)
    by (apply reach_update, reachable_feed, reach_init).
  assert (Hbs : (buffer_size s < 20)%nat) by (apply Nat.ltb_lt; lazy; reflexivity).
  destruct (small_buffer_never_trains s Hreach Hbs) as (Htr & Hac & _).
  auto.
Defined.

(** X8 on a detector with a buffer of 4, after three samples [0.0], for an
    outlier. *)
Lemma tiny_buffer_scores_zero_witness :
  let s := feed (repeat [0] 3) (@init (double 20 true) 4 0.7) in
  fst (predict s [100]) = 0.
Proof.
  cbv zeta. apply tiny_buffer_scores_zero.
  apply Nat.ltb_lt. lazy. reflexivity.
Defined.

(** X9 on a full buffer of two samples. *)
Lemma buffer_is_first_in_first_out_witness :
  let s := feed [[1]; [2]] (@init (double 20 true) 2 0.7) in
  data_buffer (snd (predict s [3])) = [[2]; [3]].
Proof.
  cbv zeta.
  set (s := feed [[1]; [2]] (@init (double 20 true) 2 0.7)).
  assert (Hacc : accepted s [3]).
  { split; [discriminate |].
    intros n Hn. lazy in Hn. injection Hn as <-. reflexivity. }
  rewrite (buffer_is_first_in_first_out s [3] Hacc).
  - lazy. reflexivity.
  - apply Nat.leb_le. lazy. reflexivity.
  - apply Nat.ltb_lt. lazy. reflexivity.
Defined.

(** X10 on the trained example and a vector it rejects. *)
Lemma predict_keeps_a_trained_model_witness :
  is_trained (snd (predict (trained_example true) [1; 2])) = true /\
  model (snd (predict (trained_example true) [1; 2])) = 1%nat.
Proof.
  destruct (predict_keeps_a_trained_model (trained_example true) [1; 2])
    as (Htr & _ & Hmo); [lazy; reflexivity |].
  split; [exact Htr |]. rewrite Hmo. lazy. reflexivity.
Defined.

(** X11 on a detector with a buffer of 20 and 19 samples in it. *)
Lemma full_buffer_trains_witness :
  let s := feed (repeat [0] 19) (@init (double 20 true) 20 0.7) in
  is_trained s = false /\
  is_trained (snd (predict s [0])) = true /\
  trained_path s [0] = true.
Proof.
  cbv zeta.
  set (s := feed (repeat [0] 19) (@init (double 20 true) 20 0.7)).
  assert (Htr : is_trained s = false) by (lazy; reflexivity).
  assert (Hacc : accepted s [0]).
  { split; [discriminate |].
    intros n Hn. lazy in Hn. injection Hn as <-. reflexivity. }
  set (s0 := buffer_sample [0] (store_feature_count [0] (count_prediction s))).
  assert (H20 : (20 <= length (data_buffer s0))%nat)
    by (apply Nat.leb_le; lazy; reflexivity).
  assert (Hfull : (buffer_size s <= length (data_buffer s0))%nat)
    by (apply Nat.leb_le; lazy; reflexivity).
  assert (Hok : fit_failed (fit_round s0) = false) by (lazy; reflexivity).
  destruct (fit_round s0) as [| c | c | c m d f | c m d f | c m d f] eqn:Hfit;
    try discriminate Hok.
  destruct (full_buffer_trains s [0] c m d f Hacc Htr H20 Hfull Hfit)
    as (Hpath & Htr' & _).
  auto.
Defined.

(** X12 on the decision values -0.5 and 0.5. *)
Lemma normalize_score_is_antitone_witness :
  normalize_score 0.5 <= normalize_score (- 0.5).
Proof.
  apply (proj2 normalize_score_is_antitone). lra.
Defined.

(** X14 on the trained example, whose forest decides 0 for every sample. *)
Lemma inlier_is_never_flagged_witness :
  anomaly_count (snd (predict (trained_example true) [0])) =
    anomaly_count (trained_example true).
Proof.
  assert (Hpath : trained_path (trained_example true) [0] = true)
    by (lazy; reflexivity).
  apply (inlier_is_never_flagged (trained_example true) [0] [[0]] 1%Z [] 0 []
           (trained_example_accepts true) Hpath).
  - lazy. reflexivity.
  - lazy. reflexivity.
  - lazy. reflexivity.
  - lra.
  - replace (threshold (trained_example true)) with 0.7 by (lazy; reflexivity).
    lra.
Defined.

(** X16 on a handler that is cancelled: the sample frame ends the reading,
    the frame after it stays unread. *)
Lemma only_base_exceptions_escape_witness :
  let c := client_init 0%nat in
  messages_received
    (fst (receive_frames stub_loads stub_cancelled
            ["sample"; "greeting"]%string c)) = 1%nat /\
  snd (receive_frames stub_loads stub_cancelled
         ["sample"; "greeting"]%string c) = Some HandlerBaseException.
Proof.
  cbv zeta.
  destruct (only_base_exceptions_escape nat stub_loads stub_cancelled
              "sample" (client_init 0%nat) HandlerBaseException)
    as (_ & _ & Hstop); [reflexivity |].
  rewrite (Hstop ["greeting"%string]). split; reflexivity.
Defined.

(** X17 on three frames, one of them sensor data. *)
Lemma handler_sees_sensor_data_only_witness :
  let c := fst (receive_frames stub_loads stub_callback
                  ["greeting"; "sample"; "not json"]%string (client_init 0%nat)) in
  length (forwarded c) = 1%nat /\
  sensor_payload (hd JNull (forwarded c)).
Proof.
  cbv zeta. split; [reflexivity |].
  refine (proj1 (handler_sees_sensor_data_only nat stub_loads stub_callback
                   ["greeting"; "sample"; "not json"]%string 0%nat _ _)).
  simpl. left. reflexivity.
Defined.

(** X19 on a dial that is refused and on one that is answered. *)
Lemma connect_reports_connection_witness :
  let down := @link_init (wire false) nat "ws://127.0.0.1:8080" 0%nat 5 [] in
  let up := @link_init (wire true) nat "ws://127.0.0.1:8080" 0%nat 5 [] in
  fold_left send [SendScore 1; SendHeartbeat] (fst (connect down))
    = fst (connect down) /\
  sending_socket (fst (connect up)) <> None.
Proof.
  cbv zeta. split.
  - destruct (connect_reports_connection nat
                (@link_init (wire false) nat "ws://127.0.0.1:8080" 0%nat 5 [])
                [SendScore 1; SendHeartbeat]) as (_ & _ & Hsilent & _).
    apply Hsilent. reflexivity.
  - destruct (connect_reports_connection nat
                (@link_init (wire true) nat "ws://127.0.0.1:8080" 0%nat 5 [])
                []) as (_ & Hsock & _).
    apply Hsock. reflexivity.
Defined.

(** X22 on a heartbeat that comes back. *)
Lemma own_messages_are_not_sensor_data_witness :
  forwarded (fst (handle_message stub_echo stub_callback "now"
                    (client_init 0%nat))) = [].
Proof.
  destruct (own_messages_are_not_sensor_data nat stub_echo stub_callback
              "now" (client_init 0%nat) SendHeartbeat "now") as (_ & Hf & _);
    [reflexivity | exact Hf].
Defined.

(** X24 on a payload whose velocity block is a string. *)
Lemma malformed_block_zeroes_the_vector_witness :
  extract_features broken_payload = repeat (JNum 0) 14.
Proof.
  apply (malformed_block_zeroes_the_vector broken_payload "velocity"
           (JStr "fast")).
  - simpl. tauto.
  - reflexivity.
  - intros m Hm. discriminate Hm.
Defined.

(** X25 on a payload with the two marker fields only. *)
Lemma absent_fields_take_defaults_witness :
  extract_features [("timestamp"%string, JStr "t"); ("orientation"%string, JArr [])]
  = repeat (JNum 0) 12 ++ [JNum 1; JNum 1].
Proof.
  apply absent_fields_take_defaults.
  intros key Hin. simpl in Hin.
  repeat (destruct Hin as [<- | Hin]; [reflexivity |]). destruct Hin.
Defined.

Lemma sample_payload_numeric :
  exists x, as_floats (extract_features sample_payload) = Some x.
Proof.
  eexists. lazy -[sqrt Rplus Rmult IZR]. reflexivity.
Qed.

(** X26 on a stream of two samples, served by a new service with the default
    configuration. *)
Lemma service_takes_every_sample_witness :
  exists v',
    serve [sample_payload; sample_payload]
      (@service_init (double 20 true) (wire true) nat default_config) = Some v' /\
    sample_count v' = 2%nat /\
    length (data_buffer (anomaly_detector v')) = 2%nat /\
    feature_count (anomaly_detector v') = Some 14%nat.
Proof.
  destruct (serve [sample_payload; sample_payload]
              (@service_init (double 20 true) (wire true) nat default_config))
    as [v' |] eqn:Hserve.
  - exists v'. split; [reflexivity |].
    destruct (service_takes_every_sample nat default_config
                [sample_payload; sample_payload] v' Hserve)
      as (Hs & _ & Hlen & Hfc).
    split; [exact Hs |]. split; [exact Hlen |]. apply Hfc. discriminate.
  - exfalso. destruct sample_payload_numeric as [x Hx].
    unfold serve, process_sensor_data in Hserve.
    rewrite Hx in Hserve. discriminate Hserve.
Defined.

(** X28 on a detector reset after a one-dimensional sample, then fed two
    more. *)
Lemma reset_cold_start_witness :
  let s := snd (predict (@init (double 20 true) 50 0.7) [1]) in
  fst (predict_all [[2]; [3]] (reset s)) =
  fst (predict_all [[2]; [3]] (@init (double 20 true) 50 0.7)).
Proof.
  cbv zeta.
  destruct (reset_cold_start (snd (predict (@init (double 20 true) 50 0.7) [1]))
              1 [[2]; [3]]) as [Hscores _].
  - lazy. reflexivity.
  - repeat constructor.
  - simpl. lia.
  - exact Hscores.
Defined.

(** X29 on three frames and a handler that never raises. *)
Lemma receive_frames_all_read_witness :
  messages_received
    (fst (receive_frames stub_loads stub_callback
            ["greeting"; "sample"; "not json"]%string (client_init 0%nat)))
  = 3%nat.
Proof.
  destruct (receive_frames_all_read nat stub_loads stub_callback
              ["greeting"; "sample"; "not json"]%string (client_init 0%nat))
    as [_ Hcount].
  - intros data h. discriminate.
  - exact Hcount.
Defined.

(** * Training rounds over a detector's history *)

Section TrainingRounds.

Context {E : Estimators}.

Implicit Types (s : AnomalyDetector) (last : option (Scaler * Forest)).

Lemma accepted_of_checks s (x : list R) :
  (length x =? 0)%nat = false ->
  dimension_mismatch x (store_feature_count x (count_prediction s)) = false ->
  accepted s x.
Proof.
  intros H0 Hdim. split.
  - intros ->. discriminate H0.
  - intros n Hn. unfold dimension_mismatch, store_feature_count in Hdim.
    change (feature_count (count_prediction s)) with (feature_count s) in Hdim.
    rewrite Hn in Hdim.
    change (feature_count (count_prediction s)) with (feature_count s) in Hdim.
    rewrite Hn in Hdim. apply negb_false_iff in Hdim. now apply Nat.eqb_eq.
Qed.

Lemma update_model_vouches s last :
  flag_vouches s last ->
  flag_vouches (update_model s)
    (match fitted_pair s with Some fitted => Some fitted | None => last end).
Proof.
  intros Hinv. unfold update_model, fitted_pair, flag_vouches.
  destruct (length (data_buffer s) <? 20)%nat; [exact Hinv |].
  destruct (fit_round s); simpl; try discriminate. reflexivity.
Qed.

Lemma predict_fitted_pair_accepted s (x : list R) :
  accepted s x ->
  let s0 := buffer_sample x (store_feature_count x (count_prediction s)) in
  predict_fitted_pair s x =
    if (length (data_buffer s0) <? 20)%nat then None
    else if negb (is_trained s0) && (buffer_size s0 <=? length (data_buffer s0))%nat
         then fitted_pair s0 else None.
Proof.
  intros Hacc. destruct (accepted_inv s x Hacc) as [H0 Hdim].
  cbv zeta. unfold predict_fitted_pair. cbv zeta. now rewrite H0, Hdim.
Qed.

Lemma predict_fitted_pair_rejected s (x : list R) :
  ~ accepted s x -> predict_fitted_pair s x = None.
Proof.
  intros Hrej. unfold predict_fitted_pair. cbv zeta.
  destruct (length x =? 0)%nat eqn:H0; [reflexivity |].
  destruct (dimension_mismatch x _) eqn:Hdim; [reflexivity |].
  exfalso. apply Hrej. now apply accepted_of_checks.
Qed.

Lemma predict_vouches s last (x : list R) :
  flag_vouches s last ->
  flag_vouches (snd (predict s x))
    (match predict_fitted_pair s x with
     | Some fitted => Some fitted
     | None => last
     end).
Proof.
  intros Hinv.
  destruct (accepted_dec s x) as [Hacc | Hrej].
  - rewrite (predict_fitted_pair_accepted s x Hacc). cbv zeta.
    destruct (predict_accepted_shape s x Hacc)
      as (_ & _ & _ & _ & Ht & Hsc & Hmo & _).
    unfold flag_vouches. rewrite Ht, Hsc, Hmo. unfold scoring_state. cbv zeta.
    destruct (buffered_fields s x) as (_ & _ & _ & Ht0 & Hsc0 & Hmo0 & _).
    set (s0 := buffer_sample x (store_feature_count x (count_prediction s))) in *.
    assert (Hinv0 : flag_vouches s0 last).
    { unfold flag_vouches. now rewrite Ht0, Hsc0, Hmo0. }
    destruct (length (data_buffer s0) <? 20)%nat; [exact Hinv0 |].
    unfold auto_train.
    destruct (negb (is_trained s0)
              && (buffer_size s0 <=? length (data_buffer s0))%nat);
      [| exact Hinv0].
    now apply update_model_vouches.
  - rewrite (predict_fitted_pair_rejected s x Hrej),
      (predict_rejected _ _ Hrej). exact Hinv.
Qed.

Lemma operation_vouches s last (o : operation) :
  flag_vouches s last ->
  flag_vouches (apply_operation s o)
    (match operation_fitted_pair s o with
     | Some fitted => Some fitted
     | None => last
     end).
Proof.
  intros Hinv. destruct o as [x | |]; simpl.
  - now apply predict_vouches.
  - now apply update_model_vouches.
  - intros Htrained. discriminate Htrained.
Qed.

Lemma replay_vouches (ops : list operation) s last :
  flag_vouches s last ->
  flag_vouches (fst (replay ops s last)) (snd (replay ops s last)).
Proof.
  revert s last. induction ops as [| o ops IH]; intros s last Hinv;
    [exact Hinv |].
  simpl. apply IH. now apply operation_vouches.
Qed.

Lemma replay_app (ops : list operation) (o : operation) s last :
  replay (ops ++ [o]) s last =
  (apply_operation (fst (replay ops s last)) o,
   match operation_fitted_pair (fst (replay ops s last)) o with
   | Some fitted => Some fitted
   | None => snd (replay ops s last)
   end).
Proof.
  revert s last. induction ops as [| o' ops IH]; intros s last;
    [reflexivity |].
  simpl. apply IH.
Qed.

Lemma replay_run (ops : list operation) s last :
  fst (replay ops s last) = run ops s.
Proof.
  revert s last. induction ops as [| o ops IH]; intros s last;
    [reflexivity |].
  simpl. apply IH.
Qed.

(** C3, as the code has it.  Take a detector after any history of calls, and
    the pair the last successful training round of that history left.
    (1) When the fitting work of [update_model] raises, the trained flag is
    false afterwards, whatever it was before; buffer, recorded dimension,
    counters and score history are as they were, and the failed round is no
    round of the history: the last successful pair stays what it was, though
    the scaler may by then be refitted beside the older forest.
    (2) Whenever the trained flag is set, the scaler and the forest the
    detector holds are exactly that last successful pair.
    (3) [predict] scores with scaler and forest on the trained branch only:
    off it, the score is the statistical score; on it, the score is computed
    from the scaler and the forest of the scoring state, and these are the
    last successful pair of the history, this call included. *)
Theorem failed_training_is_not_scored_with
  (b : nat) (t : R) (ops : list operation) :
  let s := fst (replay ops (init b t) None) in
  let last := snd (replay ops (init b t) None) in
  ((20 <= length (data_buffer s))%nat ->
   fit_failed (fit_round s) = true ->
   let s' := update_model s in
   is_trained s' = false /\
   data_buffer s' = data_buffer s /\
   feature_count s' = feature_count s /\
   prediction_count s' = prediction_count s /\
   anomaly_count s' = anomaly_count s /\
   anomaly_history s' = anomaly_history s /\
   snd (replay (ops ++ [UpdateModel]) (init b t) None) = last) /\
  (is_trained s = true -> last = Some (scaler s, model s)) /\
  (forall features, accepted s features ->
     let s1 := scoring_state s features in
     (trained_path s features = false ->
      fst (predict s features) =
        statistical_anomaly_score (data_buffer s1) features) /\
     (trained_path s features = true ->
      fst (predict s features) =
        match trained_score s1 features with
        | Some final_score => final_score
        | None => statistical_anomaly_score (data_buffer s1) features
        end /\
      snd (replay (ops ++ [Predict features]) (init b t) None) =
        Some (scaler s1, model s1))).
Proof.
  cbv zeta.
  assert (Hstart : flag_vouches (init b t) None)
    by (intros Htrained; discriminate Htrained).
  pose proof (replay_vouches ops (init b t) None Hstart) as Hinv.
  set (s := fst (replay ops (init b t) None)) in *.
  set (last := snd (replay ops (init b t) None)) in *.
  repeat apply conj.
  - intros Hlen Hfail.
    assert (Hno : fitted_pair s = None).
    { unfold fitted_pair. destruct (_ <? 20)%nat; [reflexivity |].
      destruct (fit_round s); try reflexivity. discriminate Hfail. }
    rewrite replay_app. fold s last. simpl. rewrite Hno.
    unfold update_model. apply Nat.ltb_ge in Hlen. rewrite Hlen.
    destruct (fit_round s); try discriminate Hfail; simpl; repeat split.
  - exact Hinv.
  - intros features Hacc. split.
    + intros Hpath. now rewrite (predict_statistical _ _ Hacc Hpath).
    + intros Hpath. split.
      * destruct (trained_score (scoring_state s features) features)
          as [v |] eqn:Hv.
        -- now rewrite (predict_trained _ _ _ Hacc Hpath Hv).
        -- now rewrite (predict_trained_failure _ _ Hacc Hpath Hv).
      * rewrite replay_app. fold s last. simpl.
        pose proof (predict_vouches s last features Hinv) as Hnext.
        destruct (predict_accepted_shape s features Hacc)
          as (_ & _ & _ & _ & Ht & Hsc & Hmo & _).
        unfold flag_vouches in Hnext. rewrite Ht, Hsc, Hmo in Hnext.
        apply Hnext. unfold trained_path in Hpath. cbv zeta in Hpath.
        apply andb_prop in Hpath. tauto.
Qed.

End TrainingRounds.

(** C3 as amended, on the history of the overfull example and on that
    history with one more [update_model].  After the first the detector is
    trained and holds the pair of round 1, the last that succeeded, and that
    is the pair the next sample is scored with.  The second [update_model]
    fails in the forest's fit: the flag is cleared, the detector holds
    scaler 2 beside forest 1, the last successful pair is still that of
    round 1, and the next sample is scored statistically. *)
Lemma failed_training_is_not_scored_with_witness :
  let h := replay overfull_history (@init (double 20 true) 50 0.7) None in
  let h' := replay (overfull_history ++ [UpdateModel])
              (@init (double 20 true) 50 0.7) None in
  is_trained (fst h) = true /\
  snd h = Some (scaler (fst h), model (fst h)) /\
  snd (replay (overfull_history ++ [Predict [0]])
         (@init (double 20 true) 50 0.7) None) = Some (1%nat, 1%nat) /\
  is_trained (update_model (fst h)) = false /\
  snd h' = snd h /\
  scaler (fst h') = 2%nat /\ model (fst h') = 1%nat /\
  fst (predict (fst h') [0]) =
    statistical_anomaly_score (data_buffer (scoring_state (fst h') [0])) [0].
Proof.
  cbv zeta.
  destruct (failed_training_is_not_scored_with (E := double 20 true)
              50 0.7 overfull_history) as (Hfail & Hpair & Htrained).
  destruct (failed_training_is_not_scored_with (E := double 20 true)
              50 0.7 (overfull_history ++ [UpdateModel])) as (_ & _ & Hscore).
  cbv zeta in Hfail, Hpair, Htrained, Hscore.
  assert (Htr : is_trained
                  (fst (replay overfull_history
                          (@init (double 20 true) 50 0.7) None)) = true)
    by (lazy; reflexivity).
  assert (Hlen : (20 <= length
                    (data_buffer
                       (fst (replay overfull_history
                               (@init (double 20 true) 50 0.7) None))))%nat)
    by (apply Nat.leb_le; lazy; reflexivity).
  assert (Hraise : fit_failed
                     (fit_round
                        (fst (replay overfull_history
                                (@init (double 20 true) 50 0.7) None))) = true)
    by (lazy; reflexivity).
  destruct (Hfail Hlen Hraise) as (Hflag & _ & _ & _ & _ & _ & Hlast).
  repeat apply conj.
  - exact Htr.
  - exact (Hpair Htr).
  - assert (Hacc : accepted
                     (fst (replay overfull_history
                             (@init (double 20 true) 50 0.7) None)) [0]).
    { split; [discriminate |].
      intros n Hn. lazy in Hn. injection Hn as <-. reflexivity. }
    destruct (Htrained [0] Hacc) as [_ Hon].
    destruct Hon as [_ Hlast']; [lazy; reflexivity |].
    rewrite Hlast'. lazy. reflexivity.
  - exact Hflag.
  - exact Hlast.
  - lazy. reflexivity.
  - lazy. reflexivity.
  - assert (Hacc : accepted
                     (fst (replay (overfull_history ++ [UpdateModel])
                             (@init (double 20 true) 50 0.7) None)) [0]).
    { split; [discriminate |].
      intros n Hn. lazy in Hn. injection Hn as <-. reflexivity. }
    destruct (Hscore [0] Hacc) as [Hstatistical _].
    apply Hstatistical. lazy. reflexivity.
Defined.
